(** * schoolCourses REST API: credential gate and course ownership

    A shallow embedding of [routes/user.js], [routes/course.js] and the two
    Sequelize model declarations (User, Course), followed by the properties
    of the authentication middleware, of the ownership rule and of the
    stored password.

    The route handlers are [async] functions that call collaborators
    (Sequelize, bcryptjs, the console) and may throw.  They are written here
    in a state-and-exception monad [M] over a [world] that holds the tables,
    the entropy position of the hashing library and the log of every
    collaborator call made so far.

    What the repository requires from npm is not part of it.  The packages
    whose results the routes only pass on (basic-auth, bcryptjs,
    validator.js) are fields of the class [Collaborators]; so is the
    schedule of the failures of any call.  Sequelize is given the plain
    semantics of two tables, written out below where each call is defined.

    Limits of the model: a field of a request body is absent or has the type
    of its column; [req.params.id] is an integer; the timestamps that
    Sequelize adds to every row are left out (no route names them). *)

From Stdlib Require Import ZArith Ascii String DecimalString List Bool Lia.
From stdpp Require Import base option gmap strings list.

Set Warnings "-register-all".
Open Scope Z_scope.

(* ===================================================================== *)
(** ** Values that cross the HTTP boundary *)
(* ===================================================================== *)

(** A JavaScript [Error] as far as the routes look at it: [error.name] is
    tested in [POST /users]. *)
Record error := Err { err_name : string; err_message : string }.

(** JSON values, as handed to [res.json]. *)
Inductive json :=
| JNull
| JNum (n : Z)
| JStr (s : string)
| JArr (items : list json)
| JObj (fields : list (string * json)).

(** [has_key k j]: some object inside [j], at any depth, has a field [k]. *)
Fixpoint has_key (k : string) (j : json) : bool :=
  match j with
  | JArr items => existsb (has_key k) items
  | JObj fields =>
      existsb (fun kv => match kv with
                         | (k', v) => String.eqb k' k || has_key k v
                         end) fields
  | _ => false
  end.

(** The names of the fields of a top-level object, in order. *)
Definition keys (j : json) : list string :=
  match j with
  | JObj fields => map fst fields
  | _ => []
  end.

(** What has been written to the response: nothing yet, an empty body
    ([res.end()]), a JSON document ([res.json]) or an error ([res.send]). *)
Inductive payload :=
| Pending
| Ended
| Json (j : json)
| Sent (e : error).

Record response := Response {
  statusCode : Z;
  locationHeader : option string;
  content : payload
}.

(** A fresh Express response: status 200, no header, nothing written. *)
Definition res0 : response :=
  {| statusCode := 200; locationHeader := None; content := Pending |}.

Definition res_status (code : Z) (res : response) : response :=
  {| statusCode := code; locationHeader := locationHeader res;
     content := content res |}.

Definition res_location (url : string) (res : response) : response :=
  {| statusCode := statusCode res; locationHeader := Some url;
     content := content res |}.

Definition res_json (j : json) (res : response) : response :=
  {| statusCode := statusCode res; locationHeader := locationHeader res;
     content := Json j |}.

Definition res_end (res : response) : response :=
  {| statusCode := statusCode res; locationHeader := locationHeader res;
     content := Ended |}.

Definition res_send (e : error) (res : response) : response :=
  {| statusCode := statusCode res; locationHeader := locationHeader res;
     content := Sent e |}.

(* ===================================================================== *)
(** ** The models (Sequelize declarations) *)
(* ===================================================================== *)

(** [User.init]: every column is [allowNull: false]. *)
Module User.
Record t := Build {
  id : Z;
  firstName : string;
  lastName : string;
  emailAddress : string;
  password : string
}.

(** The same row with another stored password. *)
Definition with_password (h : string) (u : t) : t :=
  {| id := id u; firstName := firstName u; lastName := lastName u;
     emailAddress := emailAddress u; password := h |}.

(** All the columns of a row, as [toJSON] lists them. *)
Definition toJSON (u : t) : list (string * json) :=
  [ ("id", JNum (id u));
    ("firstName", JStr (firstName u));
    ("lastName", JStr (lastName u));
    ("emailAddress", JStr (emailAddress u));
    ("password", JStr (password u)) ]%string.
End User.

(** [Course.init] and [Course.belongsTo(User)]: [estimatedTime] and
  [materialsNeeded] are nullable, the foreign key [userId] is not. *)
Module Course.
Record t := Build {
  id : Z;
  title : string;
  description : string;
  estimatedTime : option string;
  materialsNeeded : option string;
  userId : Z
}.

Definition nullable (o : option string) : json :=
  match o with
  | Some s => JStr s
  | None => JNull
  end.

Definition toJSON (c : t) : list (string * json) :=
  [ ("id", JNum (id c));
    ("title", JStr (title c));
    ("description", JStr (description c));
    ("estimatedTime", nullable (estimatedTime c));
    ("materialsNeeded", nullable (materialsNeeded c));
    ("userId", JNum (userId c)) ]%string.
End Course.

(** Request bodies.  A field is either absent or carries a value of the
    column's type (a string, an integer for [userId]). *)
Record UserBody := {
  b_firstName : option string;
  b_lastName : option string;
  b_emailAddress : option string;
  b_password : option string
}.

Record CourseBody := {
  b_title : option string;
  b_description : option string;
  b_estimatedTime : option string;
  b_materialsNeeded : option string;
  b_userId : option Z
}.

(** The part of an Express request the routes read: the [Authorization]
    header, [req.params.id], [req.body], and the field [req.currentUser]
    that the authentication middleware sets. *)
Record request (B : Type) := Request {
  authorization : option string;
  params_id : Z;
  body : B;
  currentUser : option User.t
}.
Arguments Request {B} _ _ _ _.
Arguments authorization {B} _.
Arguments params_id {B} _.
Arguments body {B} _.
Arguments currentUser {B} _.

(** [req.currentUser = user] *)
Definition set_currentUser {B} (user : User.t) (req : request B) : request B :=
  {| authorization := authorization req; params_id := params_id req;
     body := body req; currentUser := Some user |}.

(** A middleware either calls [next()] (the request goes on, possibly
    changed) or writes the response. *)
Inductive flow (B : Type) :=
| Next (req : request B)
| Reply (res : response).
Arguments Next {B} _.
Arguments Reply {B} _.

(** What [basic-auth] returns: [credentials.name], [credentials.pass]. *)
Record credentials := Credentials { name : string; pass : string }.

(* ===================================================================== *)
(** ** The world: tables, entropy, call log *)
(* ===================================================================== *)

(** The two tables.  [users] keeps the rows in insertion order ([findOne]
    returns the first match); [courses] is keyed by primary key.  The
    counters are the auto-increment sequences. *)
Record db := Db {
  users : list User.t;
  next_user_id : Z;
  courses : gmap Z Course.t;
  next_course_id : Z
}.

(** One entry per collaborator call, with its arguments. *)
Inductive op :=
| FindOne (emailAddress : string)
| CompareSync (pass hash : string)
| HashSync (plain : option string)
| UserCreate (b : UserBody)
| FindAll
| FindByPk (id : Z)
| CourseCreate (b : CourseBody)
| CourseUpdate (id : Z) (b : CourseBody)
| CourseDestroy (id : Z)
| ConsoleInfo (message : string)
| ConsoleWarn (message : string).

Record world := World {
  store : db;
  seed : nat;
  log : list op
}.

Definition with_store (d : db) (w : world) : world :=
  {| store := d; seed := seed w; log := log w |}.

Definition with_seed (n : nat) (w : world) : world :=
  {| store := store w; seed := n; log := log w |}.

Definition record (o : op) (w : world) : world :=
  {| store := store w; seed := seed w; log := log w ++ [o] |}.

(* ===================================================================== *)
(** ** The monad of the handlers *)
(* ===================================================================== *)

Inductive result (A : Type) :=
| Ok (a : A)
| Throw (e : error).
Arguments Ok {A} _.
Arguments Throw {A} _.

Definition M (A : Type) : Type := world -> result A * world.

Definition ret {A} (a : A) : M A := fun w => (Ok a, w).

Definition throw {A} (e : error) : M A := fun w => (Throw e, w).

Definition bind {A B} (c : M A) (k : A -> M B) : M B :=
  fun w =>
    match c w with
    | (Ok a, w') => k a w'
    | (Throw e, w') => (Throw e, w')
    end.

(** [try { c } catch (error) { h error }] *)
Definition try_catch {A} (c : M A) (h : error -> M A) : M A :=
  fun w =>
    match c w with
    | (Ok a, w') => (Ok a, w')
    | (Throw e, w') => h e w'
    end.

Notation "x <- c ;; k" := (bind c (fun x => k))
  (at level 100, c at next level, right associativity).
Notation "c ;;; k" := (bind c (fun _ => k))
  (at level 100, right associativity).

(** [value.field] of a value that may be [undefined]: a [TypeError]. *)
Definition prop {A B} (field : A -> B) (value : option A) : M B :=
  match value with
  | Some a => ret (field a)
  | None => throw (Err "TypeError" "Cannot read properties of undefined")
  end.

(* ===================================================================== *)
(** ** The collaborators *)
(* ===================================================================== *)

(** The packages the routes require and this repository does not contain:
    [basic-auth] ([parse], applied to the header value), [bcryptjs]
    ([compareSync]; [hashSync], whose salt is drawn at an entropy position),
    [validator.js] ([isEmail]), and the failures of any of them or of the
    database ([faults], which sees the calls made so far and the call about
    to be made: storage unavailable, a constraint violation, ...). *)
Class Collaborators := {
  parse : string -> option credentials;
  compareSync : string -> string -> bool;
  hashSync : nat -> string -> string;
  isEmail : string -> bool;
  faults : list op -> op -> option error
}.

Section Routes.

Context {env : Collaborators}.

(** A collaborator call: it is logged, then it fails if the environment
    makes it fail, and otherwise runs its semantics.  A call that fails has
    no effect on the tables. *)
Definition call {A} (o : op) (sem : M A) : M A :=
  fun w =>
    match faults (log w) o with
    | Some e => (Throw e, record o w)
    | None => sem (record o w)
    end.

Definition console_info (message : string) : M unit :=
  fun w => (Ok tt, record (ConsoleInfo message) w).

Definition console_warn (message : string) : M unit :=
  fun w => (Ok tt, record (ConsoleWarn message) w).

(** [auth(req)] of basic-auth: [undefined] without the header, otherwise the
    parse of its value. *)
Definition auth {B} (req : request B) : option credentials :=
  match authorization req with
  | Some header => parse header
  | None => None
  end.

Definition bcryptjs_compareSync (pass hash : string) : M bool :=
  call (CompareSync pass hash) (ret (compareSync pass hash)).

Definition bcryptjs_hashSync (plain : option string) : M string :=
  call (HashSync plain) (fun w =>
    match plain with
    | Some p => (Ok (hashSync (seed w) p), with_seed (S (seed w)) w)
    | None => (Throw (Err "Error" "Illegal arguments: undefined, undefined"), w)
    end).

(** *** Sequelize: the User table *)

(** The first row whose [emailAddress] is exactly the one asked for. *)
Definition lookup (emailAddress : string) (d : db) : option User.t :=
  List.find (fun u => String.eqb (User.emailAddress u) emailAddress) (users d).

(** [User.findOne({ where: { emailAddress } })] *)
Definition User_findOne (emailAddress : string) : M (option User.t) :=
  call (FindOne emailAddress) (fun w => (Ok (lookup emailAddress (store w)), w)).

Definition notNull : error :=
  Err "SequelizeValidationError" "notNull Violation".

(** [User.create(body)]: the id comes from the sequence. *)
Definition User_create (b : UserBody) : M User.t :=
  call (UserCreate b) (fun w =>
    let d := store w in
    match b_firstName b, b_lastName b, b_emailAddress b, b_password b with
    | Some f, Some l, Some e, Some p =>
        let u := User.Build (next_user_id d) f l e p in
        (Ok u, with_store {| users := users d ++ [u];
                             next_user_id := next_user_id d + 1;
                             courses := courses d;
                             next_course_id := next_course_id d |} w)
    | _, _, _, _ => (Throw notNull, w)
    end).

(** *** Sequelize: the Course table *)

Definition with_courses (cs : gmap Z Course.t) (d : db) : db :=
  {| users := users d; next_user_id := next_user_id d;
     courses := cs; next_course_id := next_course_id d |}.

(** [Course.findByPk(id)] *)
Definition Course_findByPk (id : Z) : M (option Course.t) :=
  call (FindByPk id) (fun w => (Ok (courses (store w) !! id), w)).

(** [Course.create(body)] *)
Definition Course_create (b : CourseBody) : M Course.t :=
  call (CourseCreate b) (fun w =>
    let d := store w in
    match b_title b, b_description b, b_userId b with
    | Some t, Some ds, Some owner =>
        let c := Course.Build (next_course_id d) t ds
                   (b_estimatedTime b) (b_materialsNeeded b) owner in
        (Ok c, with_store {| users := users d;
                             next_user_id := next_user_id d;
                             courses := <[next_course_id d := c]> (courses d);
                             next_course_id := next_course_id d + 1 |} w)
    | _, _, _ => (Throw notNull, w)
    end).

(** The instance after [course.set(body)]: the fields the body carries
    replace the instance's, [userId] included; the primary key stays. *)
Definition merge (course : Course.t) (b : CourseBody) : Course.t :=
  {| Course.id := Course.id course;
     Course.title := default (Course.title course) (b_title b);
     Course.description := default (Course.description course) (b_description b);
     Course.estimatedTime :=
       match b_estimatedTime b with
       | Some s => Some s
       | None => Course.estimatedTime course
       end;
     Course.materialsNeeded :=
       match b_materialsNeeded b with
       | Some s => Some s
       | None => Course.materialsNeeded course
       end;
     Course.userId := default (Course.userId course) (b_userId b) |}.

(** [course.update(body)]: the row of that primary key, if still there, is
    overwritten with the merged instance. *)
Definition Course_update (course : Course.t) (b : CourseBody) : M Course.t :=
  call (CourseUpdate (Course.id course) b) (fun w =>
    let course' := merge course b in
    (Ok course',
     with_store (with_courses (alter (fun _ => course') (Course.id course)
                                     (courses (store w))) (store w)) w)).

(** [course.destroy()] *)
Definition Course_destroy (course : Course.t) : M unit :=
  call (CourseDestroy (Course.id course)) (fun w =>
    (Ok tt,
     with_store (with_courses (delete (Course.id course) (courses (store w)))
                              (store w)) w)).

(** *** Sequelize: reads with [attributes] and [include] *)

(** The fields of [row] named in [attributes], in the order asked for. *)
Definition pick (attributes : list string) (row : list (string * json))
  : list (string * json) :=
  flat_map (fun a =>
              match List.find (fun kv => String.eqb (fst kv) a) row with
              | Some kv => [kv]
              | None => []
              end) attributes.

(** [include: [{ attributes, model: User }]] on a course: its owner's row,
    projected, under the key [User]. *)
Definition included (attributes : list string) (d : db) (c : Course.t) : json :=
  match List.find (fun u => Z.eqb (User.id u) (Course.userId c)) (users d) with
  | Some u => JObj (pick attributes (User.toJSON u))
  | None => JNull
  end.

Definition projected (attributes include_attributes : list string)
    (d : db) (c : Course.t) : json :=
  JObj (pick attributes (Course.toJSON c)
        ++ [("User"%string, included include_attributes d c)]).

(** [Course.findAll({ attributes, include })] *)
Definition Course_findAll (attributes include_attributes : list string)
  : M (list json) :=
  call FindAll (fun w =>
    (Ok (map (fun kc => projected attributes include_attributes (store w) (snd kc))
             (map_to_list (courses (store w)))), w)).

(** [Course.findByPk(id, { attributes, include })] *)
Definition Course_findByPk_with (id : Z)
    (attributes include_attributes : list string) : M (option json) :=
  call (FindByPk id) (fun w =>
    (Ok (projected attributes include_attributes (store w)
           <$> courses (store w) !! id), w)).

(* ===================================================================== *)
(** ** The middleware of both route files *)
(* ===================================================================== *)

Local Open Scope string_scope.

(** JavaScript truthiness of [message], which is [null] or a string. *)
Definition truthy (message : option string) : bool :=
  match message with
  | Some m => negb (String.eqb m EmptyString)
  | None => false
  end.

Definition generic_message : string :=
  "Failed or no authentication, please authenticate first.".

(** [authenticateUser], the same text in [routes/user.js] and
    [routes/course.js].  The first part computes [message] and sets
    [req.currentUser]; the second answers 401 or calls [next()]. *)
Definition authenticateUser {B} (req : request B) : M (flow B) :=
  let credentials := auth req in
  rm <- match credentials with
        | Some credentials =>
            user <- User_findOne (name credentials) ;;
            match user with
            | Some user =>
                authenticated <-
                  bcryptjs_compareSync (pass credentials) (User.password user) ;;
                if authenticated : bool then
                  console_info ("Authentication is successful for user: "
                                +:+ User.emailAddress user) ;;;
                  ret (set_currentUser user req, None)
                else
                  ret (req, Some ("User " +:+ User.emailAddress user
                                  +:+ " is not authenticated."))
            | None =>
                ret (req, Some ("User " +:+ name credentials
                                +:+ " is not found..."))
            end
        | None => ret (req, Some "AUTH Header not found.")
        end ;;
  let req := fst rm in
  let message := snd rm in
  if truthy message then
    console_warn (default EmptyString message) ;;;
    ret (Reply (res_json (JObj [("message", JStr generic_message)])
                         (res_status 401 res0)))
  else
    ret (Next req).

(** [asyncHandler(cb)]: whatever [cb] throws becomes a 500 whose body is the
    error. *)
Definition asyncHandler {B} (cb : request B -> M response)
  : request B -> M response :=
  fun req =>
    try_catch (cb req)
              (fun error => ret (res_send error (res_status 500 res0))).

(** [router.METHOD(path, gate, handler)]: the handler runs only if the gate
    called [next()].  A [Throw] that leaves this chain is a rejection that
    no code of the routes catches: no response is written by them. *)
Definition chain {B} (gate : request B -> M (flow B))
    (handler : request B -> M response) (req : request B) : M response :=
  f <- gate req ;;
  match f with
  | Next req' => handler req'
  | Reply res => ret res
  end.

(* ===================================================================== *)
(** ** express-validator *)
(* ===================================================================== *)

Definition dq : string := String "034"%char EmptyString.

(** [check(field).exists({ checkNull: true })], and with [checkFalsy: true]
    the empty string does not count either. *)
Definition exists_ (checkFalsy : bool) (value : option string) : bool :=
  match value with
  | Some s => if checkFalsy then negb (String.eqb s EmptyString) else true
  | None => false
  end.

(** One validator with its [withMessage]. *)
Definition check (ok : bool) (message : string) : list string :=
  if ok then [] else [message].

Definition user_checks (b : UserBody) : list string :=
  (check (exists_ true (b_firstName b)) (dq +:+ "firstName" +:+ dq +:+ " needs a value!")
   ++ check (exists_ true (b_lastName b)) (dq +:+ "lastName" +:+ dq +:+ " needs a value!")
   ++ check (exists_ true (b_emailAddress b)) (dq +:+ "emailAddress" +:+ dq +:+ " needs a value!")
   ++ check (isEmail (default EmptyString (b_emailAddress b)))
            (dq +:+ "emailAddress" +:+ dq +:+ " must be a VALID value!")
   ++ check (exists_ true (b_password b)) (dq +:+ "password" +:+ dq +:+ " needs a value!"))%list.

Definition course_checks_post (b : CourseBody) : list string :=
  (check (exists_ false (b_title b)) (dq +:+ "title" +:+ dq +:+ " needs a value!")
   ++ check (exists_ true (b_description b)) (dq +:+ "description" +:+ dq +:+ " needs a value"))%list.

Definition course_checks_put (b : CourseBody) : list string :=
  (check (exists_ false (b_title b)) (dq +:+ "title" +:+ dq +:+ " needs a value!")
   ++ check (exists_ true (b_description b)) (dq +:+ "description" +:+ dq +:+ " needs a value!"))%list.

(** [errors.isEmpty()] *)
Definition isEmpty (errors : list string) : bool :=
  match errors with
  | [] => true
  | _ => false
  end.

(** [res.status(400).json({ errors: errorMessages })] *)
Definition bad_request (errors : list string) : response :=
  res_json (JObj [("errors", JArr (map JStr errors))]) (res_status 400 res0).

Definition message_json (code : Z) (message : string) : response :=
  res_json (JObj [("message", JStr message)]) (res_status code res0).

(* ===================================================================== *)
(** ** routes/user.js *)
(* ===================================================================== *)

(** [GET /api/users]: the handler builds the object field by field. *)
Definition get_users_handler (req : request unit) : M response :=
  let user := currentUser req in
  id <- prop User.id user ;;
  firstName <- prop User.firstName user ;;
  lastName <- prop User.lastName user ;;
  emailAddress <- prop User.emailAddress user ;;
  ret (res_status 200
         (res_json (JObj [("id", JNum id);
                          ("firstName", JStr firstName);
                          ("lastName", JStr lastName);
                          ("emailAddress", JStr emailAddress)]) res0)).

(** [user.password = ...] on the request body. *)
Definition set_password (hashed : string) (b : UserBody) : UserBody :=
  {| b_firstName := b_firstName b; b_lastName := b_lastName b;
     b_emailAddress := b_emailAddress b; b_password := Some hashed |}.

(** [POST /api/users] *)
Definition post_users_handler (req : request UserBody) : M response :=
  let errors := user_checks (body req) in
  try_catch
    (if negb (isEmpty errors) then
       ret (bad_request errors)
     else
       let user := body req in
       hashed <- bcryptjs_hashSync (b_password user) ;;
       let user := set_password hashed user in
       User_create user ;;;
       ret (res_end (res_status 201 (res_location "/" res0))))
    (fun error =>
       if String.eqb (err_name error) "SequelizeUniqueConstraintError" then
         ret (message_json 422 "Hmm, this email is already taken!")
       else
         throw error).

Definition GET_users : request unit -> M response :=
  chain authenticateUser (asyncHandler get_users_handler).

Definition POST_users : request UserBody -> M response :=
  asyncHandler post_users_handler.

(* ===================================================================== *)
(** ** routes/course.js *)
(* ===================================================================== *)

Definition course_attributes : list string :=
  ["id"; "title"; "description"; "estimatedTime"; "materialsNeeded"; "userId"].

Definition owner_attributes : list string :=
  ["id"; "firstName"; "lastName"; "emailAddress"].

(** [GET /api/courses] *)
Definition get_courses_handler (req : request unit) : M response :=
  courses <- Course_findAll course_attributes owner_attributes ;;
  ret (res_json (JArr courses) (res_status 200 res0)).

(** [GET /api/courses/:id] *)
Definition get_course_handler (req : request unit) : M response :=
  course <- Course_findByPk_with (params_id req)
              course_attributes owner_attributes ;;
  match course with
  | Some course => ret (res_json course (res_status 200 res0))
  | None => ret (message_json 404 "Oops! The course could not be located.")
  end.

(** The decimal text of an id, for the template string. *)
Definition show (id : Z) : string :=
  DecimalString.NilZero.string_of_int (Z.to_int id).

(** [POST /api/courses] *)
Definition post_courses_handler (req : request CourseBody) : M response :=
  let errors := course_checks_post (body req) in
  try_catch
    (if negb (isEmpty errors) then
       ret (bad_request errors)
     else
       course <- Course_create (body req) ;;
       let id := Course.id course in
       ret (res_end (res_status 201
                       (res_location ("/courses/" +:+ show id) res0))))
    (fun error => throw error).

Definition not_in_database : string :=
  "Please double check that this course exists in the database.".

(** [PUT /api/courses/:id] *)
Definition put_course_handler (req : request CourseBody) : M response :=
  let errors := course_checks_put (body req) in
  try_catch
    (if negb (isEmpty errors) then
       ret (bad_request errors)
     else
       let user := currentUser req in
       course <- Course_findByPk (params_id req) ;;
       match course with
       | Some course =>
           user_id <- prop User.id user ;;
           if Z.eqb (Course.userId course) user_id then
             Course_update course (body req) ;;;
             ret (res_end (res_status 204 res0))
           else
             ret (message_json 403
                    "Please make sure you are trying to edit your own course.")
       | None => ret (message_json 404 not_in_database)
       end)
    (fun error => throw error).

(** [DELETE /api/courses/:id] *)
Definition delete_course_handler (req : request unit) : M response :=
  try_catch
    (let user := currentUser req in
     course <- Course_findByPk (params_id req) ;;
     match course with
     | Some course =>
         user_id <- prop User.id user ;;
         if Z.eqb (Course.userId course) user_id then
           Course_destroy course ;;;
           ret (res_end (res_status 204 res0))
         else
           ret (message_json 403
                  "Please make sure you are trying to modify your own course.")
     | None => ret (message_json 404 not_in_database)
     end)
    (fun error => throw error).

Definition GET_courses : request unit -> M response :=
  asyncHandler get_courses_handler.

Definition GET_course : request unit -> M response :=
  asyncHandler get_course_handler.

Definition POST_courses : request CourseBody -> M response :=
  chain authenticateUser (asyncHandler post_courses_handler).

Definition PUT_course : request CourseBody -> M response :=
  chain authenticateUser (asyncHandler put_course_handler).

Definition DELETE_course : request unit -> M response :=
  chain authenticateUser (asyncHandler delete_course_handler).

End Routes.

(* ===================================================================== *)
(** ** The router *)
(* ===================================================================== *)

(** The seven endpoints, each with the request it receives. *)
Inductive endpoint :=
| GetUsers (req : request unit)
| PostUsers (req : request UserBody)
| GetCourses (req : request unit)
| GetCourse (req : request unit)
| PostCourses (req : request CourseBody)
| PutCourse (req : request CourseBody)
| DeleteCourse (req : request unit).

Definition api {env : Collaborators} (ep : endpoint) : M response :=
  match ep with
  | GetUsers req => GET_users req
  | PostUsers req => POST_users req
  | GetCourses req => GET_courses req
  | GetCourse req => GET_course req
  | PostCourses req => POST_courses req
  | PutCourse req => PUT_course req
  | DeleteCourse req => DELETE_course req
  end.

(** The [Authorization] header and [req.params.id] of the request. *)
Definition header_of (ep : endpoint) : option string :=
  match ep with
  | GetUsers req => authorization req
  | PostUsers req => authorization req
  | GetCourses req => authorization req
  | GetCourse req => authorization req
  | PostCourses req => authorization req
  | PutCourse req => authorization req
  | DeleteCourse req => authorization req
  end.

Definition target_of (ep : endpoint) : Z :=
  match ep with
  | GetUsers req => params_id req
  | PostUsers req => params_id req
  | GetCourses req => params_id req
  | GetCourse req => params_id req
  | PostCourses req => params_id req
  | PutCourse req => params_id req
  | DeleteCourse req => params_id req
  end.
(* ===================================================================== *)
(** ** Vocabulary of the properties *)
(* ===================================================================== *)

(** [c] is one of the characters of [t]. *)
Fixpoint has_char (c : ascii) (t : string) : bool :=
  match t with
  | EmptyString => false
  | String c' t' => Ascii.eqb c' c || has_char c t'
  end.

(** [s] occurs in [t] as a contiguous piece of text. *)
Definition occurs (s t : string) : Prop :=
  exists pre post, t = pre +:+ s +:+ post.

(** The response carries a field named [k] somewhere in its JSON body. *)
Definition exposes (k : string) (res : response) : bool :=
  match content res with
  | Json j => has_key k j
  | _ => false
  end.

(** The calls to the principal lookup among the logged ones. *)
Definition is_lookup (o : op) : bool :=
  match o with
  | FindOne _ => true
  | _ => false
  end.

(** The same tables with every stored password replaced by [f] of its row. *)
Definition repassword (f : User.t -> string) (d : db) : db :=
  {| users := map (fun u => User.with_password (f u) u) (users d);
     next_user_id := next_user_id d;
     courses := courses d;
     next_course_id := next_course_id d |}.

(** The four reasons for which the gate refuses a request. *)
Inductive rejection :=
| MissingHeader
| MalformedHeader
| UnknownIdentifier
| WrongSecret.

Section Vocabulary.

Context {env : Collaborators}.
Local Open Scope string_scope.

(** The one response of a refused request. *)
Definition unauthorized : response :=
  {| statusCode := 401; locationHeader := None;
     content := Json (JObj [("message", JStr generic_message)]) |}.

(** [res.status(204).end()] *)
Definition no_content : response :=
  {| statusCode := 204; locationHeader := None; content := Ended |}.

(** No collaborator call fails. *)
Definition reliable : Prop := forall l o, faults l o = None.

(** The credentials a header value stands for ([auth] on the bare header). *)
Definition credentials_of (header : option string) : option credentials :=
  match header with
  | Some h => parse h
  | None => None
  end.

(** The request [req] is refused for the reason [why] in the world [w]. *)
Definition fails {B} (why : rejection) (req : request B) (w : world) : Prop :=
  match why with
  | MissingHeader => authorization req = None
  | MalformedHeader =>
      exists h, authorization req = Some h /\ parse h = None
  | UnknownIdentifier =>
      exists c, auth req = Some c
        /\ faults (log w) (FindOne (name c)) = None
        /\ lookup (name c) (store w) = None
  | WrongSecret =>
      exists c u, auth req = Some c
        /\ faults (log w) (FindOne (name c)) = None
        /\ lookup (name c) (store w) = Some u
        /\ faults (log w ++ [FindOne (name c)])
                  (CompareSync (pass c) (User.password u)) = None
        /\ compareSync (pass c) (User.password u) = false
  end.

(** The gate lets [req] through as the principal [u], leaving the world
    [w1]. *)
Definition admits {B} (req : request B) (w : world) (u : User.t) (w1 : world)
  : Prop :=
  authenticateUser req w = (Ok (Next (set_currentUser u req)), w1).

(** The lookup or the hash comparison of the gate fails with [e]. *)
Definition gate_fault (header : option string) (w : world) (e : error) : Prop :=
  exists c, credentials_of header = Some c
    /\ (faults (log w) (FindOne (name c)) = Some e
        \/ (faults (log w) (FindOne (name c)) = None
            /\ exists u, lookup (name c) (store w) = Some u
                 /\ faults (log w ++ [FindOne (name c)])
                           (CompareSync (pass c) (User.password u)) = Some e)).

(** The header proves the identity of the row [u]: it parses, the lookup of
    its identifier returns [u], and the stored hash of [u] verifies its
    secret. *)
Definition authenticates (header : option string) (w : world) (u : User.t)
  : Prop :=
  exists c, credentials_of header = Some c
    /\ lookup (name c) (store w) = Some u
    /\ compareSync (pass c) (User.password u) = true.

(** The header does not prove an identity: it is missing, or does not
    parse, or names nobody, or carries a secret that the stored hash does
    not verify. *)
Definition credential_problem (header : option string) (w : world) : Prop :=
  match credentials_of header with
  | None => True
  | Some c =>
      match lookup (name c) (store w) with
      | None => True
      | Some u => compareSync (pass c) (User.password u) = false
      end
  end.

(** The header proves the identity of a principal who does not own the
    course [id]. *)
Definition ownership_problem (header : option string) (id : Z) (w : world)
  : Prop :=
  exists u course,
    authenticates header w u
    /\ courses (store w) !! id = Some course
    /\ Course.userId course <> User.id u.

(** The endpoints that change or remove an existing course. *)
Definition edits (ep : endpoint) : bool :=
  match ep with
  | PutCourse _ | DeleteCourse _ => true
  | _ => false
  end.

(** The endpoint that creates a course. *)
Definition creates (ep : endpoint) : bool :=
  match ep with
  | PostCourses _ => true
  | _ => false
  end.

(** The endpoints that only read. *)
Definition reads (ep : endpoint) : bool :=
  match ep with
  | GetUsers _ | GetCourses _ | GetCourse _ => true
  | _ => false
  end.

(** The [userId] that the body of the request carries, where the endpoint
    hands the body to Sequelize. *)
Definition body_owner (ep : endpoint) : option Z :=
  match ep with
  | PostCourses req | PutCourse req => b_userId (body req)
  | _ => None
  end.

(** The validators of the endpoint, if it has any, accept the body. *)
Definition valid (ep : endpoint) : Prop :=
  match ep with
  | PostUsers req => user_checks (body req) = []
  | PostCourses req => course_checks_post (body req) = []
  | PutCourse req => course_checks_put (body req) = []
  | _ => True
  end.

(** The course table after the edit of the instance [c] by the endpoint. *)
Definition applied (ep : endpoint) (c : Course.t) (cs : gmap Z Course.t)
  : gmap Z Course.t :=
  match ep with
  | PutCourse req => alter (fun _ => merge c (body req)) (Course.id c) cs
  | DeleteCourse _ => delete (Course.id c) cs
  | _ => cs
  end.

(** The 403 of the endpoint. *)
Definition forbidden (ep : endpoint) : response :=
  match ep with
  | PutCourse _ =>
      message_json 403 "Please make sure you are trying to edit your own course."
  | _ =>
      message_json 403 "Please make sure you are trying to modify your own course."
  end.

(** The 404 of [PUT] and [DELETE]. *)
Definition not_found : response := message_json 404 not_in_database.

(** What [GET /api/users] sends for the row [u]. *)
Definition profile (u : User.t) : json :=
  JObj [("id", JNum (User.id u));
        ("firstName", JStr (User.firstName u));
        ("lastName", JStr (User.lastName u));
        ("emailAddress", JStr (User.emailAddress u))].

(** The course documents of a response: the elements of an array, or the
    single document. *)
Definition documents (res : response) : list json :=
  match content res with
  | Json (JArr items) => items
  | Json j => [j]
  | _ => []
  end.

(** The value under the key [User] of a course document. *)
Definition owner_of (doc : json) : option json :=
  match doc with
  | JObj fields =>
      snd <$> List.find (fun kv => String.eqb (fst kv) "User") fields
  | _ => None
  end.

(** The endpoints behind [authenticateUser]. *)
Definition protected (ep : endpoint) : bool :=
  match ep with
  | GetUsers _ | PostCourses _ | PutCourse _ | DeleteCourse _ => true
  | PostUsers _ | GetCourses _ | GetCourse _ => false
  end.

(** The six ways a run of [authenticateUser] can go, with the result and
    the world it leaves. *)
Inductive gate_run {B} (req : request B) (w : world)
  : result (flow B) -> world -> Prop :=
| run_no_credentials :
    auth req = None ->
    gate_run req w (Ok (Reply unauthorized))
             (record (ConsoleWarn "AUTH Header not found.") w)
| run_lookup_fault c e :
    auth req = Some c ->
    faults (log w) (FindOne (name c)) = Some e ->
    gate_run req w (Throw e) (record (FindOne (name c)) w)
| run_unknown c :
    auth req = Some c ->
    faults (log w) (FindOne (name c)) = None ->
    lookup (name c) (store w) = None ->
    gate_run req w (Ok (Reply unauthorized))
             (record (ConsoleWarn ("User " +:+ name c +:+ " is not found..."))
                     (record (FindOne (name c)) w))
| run_compare_fault c u e :
    auth req = Some c ->
    faults (log w) (FindOne (name c)) = None ->
    lookup (name c) (store w) = Some u ->
    faults (log w ++ [FindOne (name c)])
           (CompareSync (pass c) (User.password u)) = Some e ->
    gate_run req w (Throw e)
             (record (CompareSync (pass c) (User.password u))
                     (record (FindOne (name c)) w))
| run_bad_secret c u :
    auth req = Some c ->
    faults (log w) (FindOne (name c)) = None ->
    lookup (name c) (store w) = Some u ->
    faults (log w ++ [FindOne (name c)])
           (CompareSync (pass c) (User.password u)) = None ->
    compareSync (pass c) (User.password u) = false ->
    gate_run req w (Ok (Reply unauthorized))
             (record (ConsoleWarn ("User " +:+ User.emailAddress u
                                   +:+ " is not authenticated."))
                (record (CompareSync (pass c) (User.password u))
                        (record (FindOne (name c)) w)))
| run_authenticated c u :
    auth req = Some c ->
    faults (log w) (FindOne (name c)) = None ->
    lookup (name c) (store w) = Some u ->
    faults (log w ++ [FindOne (name c)])
           (CompareSync (pass c) (User.password u)) = None ->
    compareSync (pass c) (User.password u) = true ->
    gate_run req w (Ok (Next (set_currentUser u req)))
             (record (ConsoleInfo ("Authentication is successful for user: "
                                   +:+ User.emailAddress u))
                (record (CompareSync (pass c) (User.password u))
                        (record (FindOne (name c)) w))).

(** The error messages of the validators of an editing endpoint. *)
Definition errors_of (ep : endpoint) : list string :=
  match ep with
  | PutCourse req => course_checks_put (body req)
  | _ => []
  end.

(** The call by which an editing endpoint changes the instance [c]. *)
Definition mutation_call (ep : endpoint) (c : Course.t) : op :=
  match ep with
  | PutCourse req => CourseUpdate (Course.id c) (body req)
  | _ => CourseDestroy (Course.id c)
  end.

(** [res.status(500).send(error)] *)
Definition server_error (e : error) : response :=
  res_send e (res_status 500 res0).

(** The six ways the handler of [PUT] or [DELETE /courses/:id] can go for
    the principal [u], with its result and the world it leaves. *)
Inductive edit_run (ep : endpoint) (u : User.t) (w : world)
  : result response -> world -> Prop :=
| edit_invalid :
    errors_of ep <> [] ->
    edit_run ep u w (Ok (bad_request (errors_of ep))) w
| edit_find_fault e :
    errors_of ep = [] ->
    faults (log w) (FindByPk (target_of ep)) = Some e ->
    edit_run ep u w (Ok (server_error e)) (record (FindByPk (target_of ep)) w)
| edit_not_found :
    errors_of ep = [] ->
    faults (log w) (FindByPk (target_of ep)) = None ->
    courses (store w) !! target_of ep = None ->
    edit_run ep u w (Ok not_found) (record (FindByPk (target_of ep)) w)
| edit_forbidden c :
    errors_of ep = [] ->
    faults (log w) (FindByPk (target_of ep)) = None ->
    courses (store w) !! target_of ep = Some c ->
    Course.userId c <> User.id u ->
    edit_run ep u w (Ok (forbidden ep)) (record (FindByPk (target_of ep)) w)
| edit_mutation_fault c e :
    errors_of ep = [] ->
    faults (log w) (FindByPk (target_of ep)) = None ->
    courses (store w) !! target_of ep = Some c ->
    Course.userId c = User.id u ->
    faults (log w ++ [FindByPk (target_of ep)]) (mutation_call ep c) = Some e ->
    edit_run ep u w (Ok (server_error e))
             (record (mutation_call ep c) (record (FindByPk (target_of ep)) w))
| edit_applied c :
    errors_of ep = [] ->
    faults (log w) (FindByPk (target_of ep)) = None ->
    courses (store w) !! target_of ep = Some c ->
    Course.userId c = User.id u ->
    faults (log w ++ [FindByPk (target_of ep)]) (mutation_call ep c) = None ->
    edit_run ep u w (Ok no_content)
             (with_store
                (with_courses (applied ep c (courses (store w))) (store w))
                (record (mutation_call ep c)
                        (record (FindByPk (target_of ep)) w))).

End Vocabulary.

(* ===================================================================== *)
(** ** A small deployment, for concrete runs *)
(* ===================================================================== *)

Module Demo.
Local Open Scope string_scope.

(** The text before the first colon, and the text after it. *)
Fixpoint split_colon (s : string) : option (string * string) :=
  match s with
  | EmptyString => None
  | String c rest =>
      if Ascii.eqb c ":" then Some (EmptyString, rest)
      else match split_colon rest with
           | Some (n, p) => Some (String c n, p)
           | None => None
           end
  end.

(** A header parser of the shape of basic-auth's, without the base64 layer:
    [Basic name:pass]. *)
Definition parse_plain (header : string) : option credentials :=
  match header with
  | String "B" (String "a" (String "s" (String "i" (String "c" (String " " rest))))) =>
      match split_colon rest with
      | Some (n, p) => Some (Credentials n p)
      | None => None
      end
  | _ => None
  end.

(** A stand-in for bcryptjs: a salt character drawn at the entropy
    position, then the text.  [compare] ignores the salt. *)
Definition salted (n : nat) (p : string) : string :=
  String (ascii_of_nat (65 + n mod 26)) p.

Definition compare (p h : string) : bool :=
  match h with
  | String _ rest => String.eqb rest p
  | EmptyString => false
  end.

Definition unavailable : error :=
  Err "SequelizeConnectionError" "storage unavailable".

(** Nothing fails. *)
Definition steady : Collaborators :=
  {| parse := parse_plain;
     compareSync := compare;
     hashSync := salted;
     isEmail := fun s => has_char "@" s;
     faults := fun _ _ => None |}.

(** The same, with the user table out of reach. *)
Definition outage : Collaborators :=
  {| parse := parse_plain;
     compareSync := compare;
     hashSync := salted;
     isEmail := fun s => has_char "@" s;
     faults := fun _ o => if is_lookup o then Some unavailable else None |}.

Definition alice : User.t :=
  User.Build 7 "Alice" "Liddell" "alice@example.com" "Qcorrect-secret".

Definition bob : User.t :=
  User.Build 9 "Bob" "Builder" "bob@example.com" "Zhammer".

Definition algebra : Course.t :=
  Course.Build 1 "Algebra" "Groups and rings" None None 7.

Definition botany : Course.t :=
  Course.Build 2 "Botany" "Plants" (Some "6 hours") None 9.

Definition tables : db :=
  {| users := [alice; bob]; next_user_id := 10;
     courses := <[2 := botany]> (<[1 := algebra]> ∅); next_course_id := 3 |}.

Definition w0 : world := {| store := tables; seed := 0; log := [] |}.

Definition as_alice : option string := Some "Basic alice@example.com:correct-secret".
Definition as_alice_wrong : option string := Some "Basic alice@example.com:wrong-secret".
Definition as_bob : option string := Some "Basic bob@example.com:hammer".
Definition as_carol : option string := Some "Basic carol@example.com:x".
Definition garbled : option string := Some "Bearer 123".

Definition geometry : CourseBody :=
  {| b_title := Some "Geometry"; b_description := Some "Shapes";
     b_estimatedTime := None; b_materialsNeeded := None; b_userId := Some 9 |}.

(** A body that the validators refuse: no description. *)
Definition untitled : CourseBody :=
  {| b_title := Some "Geometry"; b_description := None;
     b_estimatedTime := None; b_materialsNeeded := None; b_userId := None |}.

Definition renamed : CourseBody :=
  {| b_title := Some "Linear algebra"; b_description := Some "Vectors";
     b_estimatedTime := None; b_materialsNeeded := None; b_userId := None |}.

Definition carol : UserBody :=
  {| b_firstName := Some "Carol"; b_lastName := Some "Danvers";
     b_emailAddress := Some "carol@example.com"; b_password := Some "higher" |}.

Definition stranger : request unit := Request None 1 tt None.
Definition garbler : request unit := Request garbled 1 tt None.
Definition carol_reads : request unit := Request as_carol 1 tt None.
Definition alice_wrong : request unit := Request as_alice_wrong 1 tt None.
Definition alice_reads : request unit := Request as_alice 1 tt None.
Definition alice_deletes : request unit := Request as_alice 1 tt None.
Definition alice_deletes_99 : request unit := Request as_alice 99 tt None.
Definition alice_deletes_botany : request unit := Request as_alice 2 tt None.
Definition bob_deletes : request unit := Request as_bob 1 tt None.
Definition alice_renames : request CourseBody := Request as_alice 1 renamed None.
Definition alice_gives_away : request CourseBody := Request as_alice 1 geometry None.
Definition alice_puts_untitled : request CourseBody := Request as_alice 1 untitled None.
Definition alice_puts_untitled_99 : request CourseBody :=
  Request as_alice 99 untitled None.
Definition alice_posts_for_bob : request CourseBody := Request as_alice 0 geometry None.
Definition carol_signs_up : request UserBody := Request None 0 carol None.

(** A database that refuses every new user as a duplicate. *)
Definition conflict : error :=
  Err "SequelizeUniqueConstraintError" "Validation error".

Definition constrained : Collaborators :=
  {| parse := parse_plain;
     compareSync := compare;
     hashSync := salted;
     isEmail := fun s => has_char "@" s;
     faults := fun _ o => match o with
                          | UserCreate _ => Some conflict
                          | _ => None
                          end |}.

Definition nameless : UserBody :=
  {| b_firstName := None; b_lastName := Some "Danvers";
     b_emailAddress := Some "carol@example.com"; b_password := Some "higher" |}.

Definition second_alice : UserBody :=
  {| b_firstName := Some "Alice"; b_lastName := Some "Pleasance";
     b_emailAddress := Some "alice@example.com"; b_password := Some "other" |}.

Definition as_carol_higher : option string :=
  Some "Basic carol@example.com:higher".

Definition nameless_signs_up : request UserBody := Request None 0 nameless None.
Definition alice_signs_up_again : request UserBody :=
  Request None 0 second_alice None.
Definition carol_returns : request unit := Request as_carol_higher 0 tt None.
Definition alice_posts_ownerless : request CourseBody :=
  Request as_alice 0 renamed None.
Definition reads_1 : request unit := Request None 1 tt None.
Definition reads_3 : request unit := Request None 3 tt None.


End Demo.

(* ===================================================================== *)
(** ** Vocabulary of the tables and of the other answers *)
(* ===================================================================== *)

(** Every row of the course table sits under its own [id]. *)
Definition keyed (d : db) : Prop :=
  forall k c, courses d !! k = Some c -> Course.id c = k.

(** The two sequences are ahead of every id in use. *)
Definition ahead (d : db) : Prop :=
  (forall k c, courses d !! k = Some c -> k < next_course_id d)
  /\ (forall u, In u (users d) -> User.id u < next_user_id d).

(** No two rows of the user table have the same [id]. *)
Definition unique_ids (d : db) : Prop := NoDup (map User.id (users d)).

Definition well_formed (d : db) : Prop :=
  keyed d /\ ahead d /\ unique_ids d.

(** The user table with one more row, the sequence moved on. *)
Definition with_user (u : User.t) (d : db) : db :=
  {| users := users d ++ [u];
     next_user_id := next_user_id d + 1;
     courses := courses d;
     next_course_id := next_course_id d |}.

(** The course table with one more row under the next id, the sequence
    moved on. *)
Definition with_course (c : Course.t) (d : db) : db :=
  {| users := users d;
     next_user_id := next_user_id d;
     courses := <[next_course_id d := c]> (courses d);
     next_course_id := next_course_id d + 1 |}.

(** [res.location(url).status(201).end()] *)
Definition created (url : string) : response :=
  {| statusCode := 201; locationHeader := Some url; content := Ended |}.

(** The statuses that each route can answer. *)
Definition statuses (ep : endpoint) : list Z :=
  match ep with
  | GetUsers _ => [200; 401]
  | PostUsers _ => [201; 400; 422; 500]
  | GetCourses _ => [200; 500]
  | GetCourse _ => [200; 404; 500]
  | PostCourses _ => [201; 400; 401; 500]
  | PutCourse _ => [204; 400; 401; 403; 404; 500]
  | DeleteCourse _ => [204; 401; 403; 404; 500]
  end.

(** The field is there and is not the empty string. *)
Definition filled (value : option string) : Prop :=
  exists s, value = Some s /\ s <> EmptyString.

Section MoreVocabulary.

Context {env : Collaborators}.
Local Open Scope string_scope.

(** The 422 of [POST /users]. *)
Definition taken : response :=
  message_json 422 "Hmm, this email is already taken!".

(** The 404 of [GET /courses/:id]. *)
Definition not_located : response :=
  message_json 404 "Oops! The course could not be located.".

(** What the [catch] of [POST /users] and then [asyncHandler] make of an
    exception. *)
Definition sign_up_error (e : error) : response :=
  if String.eqb (err_name e) "SequelizeUniqueConstraintError" then taken
  else server_error e.

(** The bodies that the validators of [POST /users] accept. *)
Definition acceptable (b : UserBody) : Prop :=
  filled (b_firstName b) /\ filled (b_lastName b)
  /\ filled (b_emailAddress b) /\ filled (b_password b)
  /\ isEmail (default EmptyString (b_emailAddress b)) = true.

(** The bodies that the validators of [POST] and [PUT /courses] accept. *)
Definition acceptable_course (b : CourseBody) : Prop :=
  (exists t, b_title b = Some t) /\ filled (b_description b).

(** The body that the endpoint hands to the validators of a course. *)
Definition course_body (ep : endpoint) : option CourseBody :=
  match ep with
  | PostCourses req | PutCourse req => Some (body req)
  | _ => None
  end.

(** The document of the course [c], as the reads send it. *)
Definition document (d : db) (c : Course.t) : json :=
  projected course_attributes owner_attributes d c.

(** What an endpoint does to the tables, with the answer that goes with
    it: nothing, whatever the answer; one more user, with the 201 of the
    sign-up; one more course, with the 201 that names it; the edit of the
    target, with the 204. *)
Inductive effect (ep : endpoint) (d : db) : result response -> db -> Prop :=
| effect_none r :
    effect ep d r d
| effect_user u req :
    ep = PostUsers req ->
    User.id u = next_user_id d ->
    effect ep d (Ok (created "/")) (with_user u d)
| effect_course c req :
    ep = PostCourses req ->
    Course.id c = next_course_id d ->
    b_userId (body req) = Some (Course.userId c) ->
    effect ep d (Ok (created ("/courses/" +:+ show (next_course_id d))))
           (with_course c d)
| effect_edit c :
    edits ep = true ->
    courses d !! target_of ep = Some c ->
    effect ep d (Ok no_content) (with_courses (applied ep c (courses d)) d).

End MoreVocabulary.
(* ===================================================================== *)
(** ** Text *)
(* ===================================================================== *)

Lemma has_char_app c pre t :
  has_char c t = true -> has_char c (pre +:+ t) = true.
Proof.
  intros E. induction pre as [|a pre IH]; [exact E|].
  change (Ascii.eqb a c || has_char c (pre +:+ t) = true).
  rewrite IH. apply orb_true_r.
Qed.

Lemma occurs_head c s t : occurs (String c s) t -> has_char c t = true.
Proof.
  intros (pre & post & ->). apply has_char_app.
  change (Ascii.eqb c c || has_char c (s +:+ post) = true).
  now rewrite Ascii.eqb_refl.
Qed.

(** Neither an [A] nor a [U] in the message sent to the client, so none of
    the logged reasons, which begin with one of them, occurs in it. *)
Lemma reason_not_in_generic_message c s :
  has_char c generic_message = false -> ~ occurs (String c s) generic_message.
Proof. intros E O. apply occurs_head in O. congruence. Qed.

(* ===================================================================== *)
(** ** The gate *)
(* ===================================================================== *)

Section Gate.

Context {env : Collaborators}.
Local Open Scope string_scope.

Lemma authenticateUser_run {B} (req : request B) (w : world) :
  gate_run req w (fst (authenticateUser req w)) (snd (authenticateUser req w)).
Proof.
  unfold authenticateUser, bind, User_findOne, bcryptjs_compareSync, call.
  destruct (auth req) as [c|] eqn:Hc.
  2:{ cbn. now apply run_no_credentials. }
  destruct (faults (log w) (FindOne (name c))) as [e|] eqn:Hf; cbn.
  { now apply run_lookup_fault. }
  destruct (lookup (name c) (store w)) as [u|] eqn:Hu; cbn.
  2:{ now apply run_unknown. }
  destruct (faults (log w ++ [FindOne (name c)])
              (CompareSync (pass c) (User.password u))) as [e|] eqn:Hg; cbn.
  { now apply (run_compare_fault req w c u e). }
  destruct (compareSync (pass c) (User.password u)) eqn:Hok; cbn.
  - now apply (run_authenticated req w c u).
  - now apply (run_bad_secret req w c u).
Qed.

Lemma authenticateUser_inv {B} (req : request B) w r w' :
  authenticateUser req w = (r, w') -> gate_run req w r w'.
Proof.
  intros E. pose proof (authenticateUser_run req w) as R.
  rewrite E in R. exact R.
Qed.

Lemma gate_run_eq {B} (req : request B) w r w' :
  gate_run req w r w' -> authenticateUser req w = (r, w').
Proof.
  intros R.
  unfold authenticateUser, bind, User_findOne, bcryptjs_compareSync, call.
  destruct R as [Hc|c e Hc Hf|c Hc Hf Hu|c u e Hc Hf Hu Hg
                |c u Hc Hf Hu Hg Hok|c u Hc Hf Hu Hg Hok];
    rewrite Hc; cbn; try rewrite Hf; cbn; try rewrite Hu; cbn;
    try rewrite Hg; cbn; try rewrite Hok; reflexivity.
Qed.

(** The gate only reads the tables and draws no entropy. *)
Lemma gate_run_store {B} (req : request B) w r w' :
  gate_run req w r w' -> store w' = store w /\ seed w' = seed w.
Proof. destruct 1; split; reflexivity. Qed.

(** A refused request never reaches the handler; an admitted one reaches it
    with [req.currentUser] set; a failure of the gate leaves the chain. *)
Lemma chain_reply {B} (handler : request B -> M response) req w res w' :
  authenticateUser req w = (Ok (Reply res), w') ->
  chain authenticateUser handler req w = (Ok res, w').
Proof. intros E. unfold chain, bind. now rewrite E. Qed.

Lemma chain_next {B} (handler : request B -> M response) req w req' w' :
  authenticateUser req w = (Ok (Next req'), w') ->
  chain authenticateUser handler req w = handler req' w'.
Proof. intros E. unfold chain, bind. now rewrite E. Qed.

Lemma chain_throw {B} (handler : request B -> M response) req w e w' :
  authenticateUser req w = (Throw e, w') ->
  chain authenticateUser handler req w = (Throw e, w').
Proof. intros E. unfold chain, bind. now rewrite E. Qed.

Lemma auth_credentials_of {B} (req : request B) :
  auth req = credentials_of (authorization req).
Proof. reflexivity. Qed.

(** With one row per identifier, the lookup returns that row. *)
Lemma lookup_unique (d : db) (i : string) (u : User.t) :
  In u (users d) -> User.emailAddress u = i ->
  (forall u', In u' (users d) -> User.emailAddress u' = i -> u' = u) ->
  lookup i d = Some u.
Proof.
  intros Hin He Huniq. unfold lookup.
  destruct (List.find _ (users d)) as [u'|] eqn:F.
  - apply List.find_some in F as [Hin' E].
    apply String.eqb_eq in E. now rewrite (Huniq u' Hin' E).
  - apply (List.find_none _ _ F) in Hin. cbn in Hin.
    rewrite He, String.eqb_refl in Hin. discriminate.
Qed.

(** The three outcomes of the gate, in the terms of the header: refused
    for a credential problem, failed, or admitted for a proven identity. *)
Lemma gate_outcome {B} (req : request B) w r w1 :
  authenticateUser req w = (r, w1) ->
  store w1 = store w
  /\ ((r = Ok (Reply unauthorized)
       /\ credential_problem (authorization req) w)
      \/ (exists e, r = Throw e /\ gate_fault (authorization req) w e)
      \/ (exists u, r = Ok (Next (set_currentUser u req))
            /\ authenticates (authorization req) w u)).
Proof.
  intros E. apply authenticateUser_inv in E.
  split; [now apply (gate_run_store req w r w1)|].
  unfold credential_problem, gate_fault, authenticates.
  rewrite <- (auth_credentials_of req).
  destruct E as [Hc|c e Hc Hf|c Hc Hf Hu|c u e Hc Hf Hu Hg
                |c u Hc Hf Hu Hg Hok|c u Hc Hf Hu Hg Hok]; rewrite Hc.
  - left. auto.
  - right; left. exists e. split; [reflexivity|]. exists c. auto.
  - left. rewrite Hu. auto.
  - right; left. exists e. split; [reflexivity|]. exists c.
    split; [reflexivity|]. right. split; [assumption|]. exists u. auto.
  - left. rewrite Hu. auto.
  - right; right. exists u. split; [reflexivity|]. exists c. auto.
Qed.

(** C1. Whatever the reason of the refusal (no header, a header that does
    not parse, an identifier nobody has, a secret that the stored hash does
    not verify), the gate writes the one response [unauthorized]: status
    401 and the JSON object whose only field is the generic message.  The
    reason itself goes to [console.warn], and does not occur in that
    message.  The handler behind the gate does not run. *)
Theorem rejection_is_uniform {B} (why : rejection) (req : request B) (w : world) :
  fails why req w ->
  exists reason w1,
    authenticateUser req w
      = (Ok (Reply unauthorized), record (ConsoleWarn reason) w1)
    /\ statusCode unauthorized = 401
    /\ content unauthorized = Json (JObj [("message", JStr generic_message)])
    /\ ~ occurs reason generic_message
    /\ forall handler : request B -> M response,
         chain authenticateUser handler req w
         = (Ok unauthorized, record (ConsoleWarn reason) w1).
Proof.
  intros F.
  assert (X : exists reason w1,
             authenticateUser req w
             = (Ok (Reply unauthorized), record (ConsoleWarn reason) w1)
             /\ ~ occurs reason generic_message).
  { destruct why; cbn in F.
    - do 2 eexists. split.
      + apply gate_run_eq, run_no_credentials.
        unfold auth. now rewrite F.
      + now apply reason_not_in_generic_message.
    - destruct F as (h & Hh & Hp).
      do 2 eexists. split.
      + apply gate_run_eq, run_no_credentials.
        unfold auth. now rewrite Hh.
      + now apply reason_not_in_generic_message.
    - destruct F as (c & Hc & Hf & Hu).
      do 2 eexists. split.
      + apply gate_run_eq. now apply (run_unknown req w c).
      + now apply reason_not_in_generic_message.
    - destruct F as (c & u & Hc & Hf & Hu & Hg & Hno).
      do 2 eexists. split.
      + apply gate_run_eq. now apply (run_bad_secret req w c u).
      + now apply reason_not_in_generic_message. }
  destruct X as (reason & w1 & E & N).
  exists reason, w1. split; [exact E|]. split; [reflexivity|].
  split; [reflexivity|]. split; [exact N|].
  intros handler. now apply chain_reply.
Qed.


(** C5. Without the header, or with a header that does not parse, the gate
    answers [unauthorized] after one call only, the [console.warn]: no
    [User.findOne] is among the calls it makes, and the tables are as they
    were. *)
Theorem no_lookup_without_credentials {B} (req : request B) (w : world) :
  authorization req = None
  \/ (exists h, authorization req = Some h /\ parse h = None) ->
  exists w1 calls,
    authenticateUser req w = (Ok (Reply unauthorized), w1)
    /\ log w1 = (log w ++ calls)%list
    /\ calls = [ConsoleWarn "AUTH Header not found."]
    /\ (forall emailAddress, ~ In (FindOne emailAddress) calls)
    /\ store w1 = store w.
Proof.
  intros Hno.
  assert (Hc : auth req = None).
  { unfold auth. destruct Hno as [-> | (h & -> & ->)]; reflexivity. }
  do 2 eexists. split.
  { apply gate_run_eq. now apply run_no_credentials. }
  split; [reflexivity|]. split; [reflexivity|]. split; [|reflexivity].
  intros e [E|[]]. discriminate.
Qed.

End Gate.

(* ===================================================================== *)
(** ** Runs of the endpoints *)
(* ===================================================================== *)

Section Endpoints.

Context {env : Collaborators}.
Local Open Scope string_scope.

(** What the gate admits is what the header proves. *)
Lemma admitted_authenticates {B} (req req' : request B) w w1 :
  authenticateUser req w = (Ok (Next req'), w1) ->
  exists u, req' = set_currentUser u req
    /\ authenticates (authorization req) w u
    /\ store w1 = store w.
Proof.
  intros E. apply authenticateUser_inv in E.
  inversion E as [| | | | |c u Hc Hf Hu Hg Hok]; subst.
  exists u. repeat split. exists c. auto.
Qed.

Lemma authenticates_admits {B} (req : request B) w u :
  reliable -> authenticates (authorization req) w u ->
  exists w1, admits req w u w1 /\ store w1 = store w.
Proof.
  intros Hrel (c & Hc & Hu & Hok).
  eexists. split.
  - apply gate_run_eq. apply (run_authenticated req w c u); auto.
  - reflexivity.
Qed.

Lemma put_course_run (req : request CourseBody) (u : User.t) (w : world) :
  edit_run (PutCourse req) u w
           (fst (asyncHandler put_course_handler (set_currentUser u req) w))
           (snd (asyncHandler put_course_handler (set_currentUser u req) w)).
Proof.
  unfold asyncHandler, put_course_handler, try_catch, bind,
    Course_findByPk, Course_update, call, prop.
  cbn [body params_id currentUser set_currentUser].
  destruct (course_checks_put (body req)) as [|m ms] eqn:V; cbn [isEmpty negb].
  2:{ cbn. rewrite <- V. apply edit_invalid. cbn. now rewrite V. }
  destruct (faults (log w) (FindByPk (params_id req))) as [e|] eqn:Hf; cbn.
  { now apply edit_find_fault. }
  destruct (courses (store w) !! params_id req) as [c|] eqn:Hc; cbn.
  2:{ now apply edit_not_found. }
  destruct (Z.eqb_spec (Course.userId c) (User.id u)) as [Ho|Ho]; cbn.
  2:{ now apply (edit_forbidden (PutCourse req) u w c). }
  destruct (faults (log w ++ [FindByPk (params_id req)])
              (CourseUpdate (Course.id c) (body req))) as [e|] eqn:Hg; cbn.
  - now apply (edit_mutation_fault (PutCourse req) u w c e).
  - now apply (edit_applied (PutCourse req) u w c).
Qed.

Lemma delete_course_run (req : request unit) (u : User.t) (w : world) :
  edit_run (DeleteCourse req) u w
           (fst (asyncHandler delete_course_handler (set_currentUser u req) w))
           (snd (asyncHandler delete_course_handler (set_currentUser u req) w)).
Proof.
  unfold asyncHandler, delete_course_handler, try_catch, bind,
    Course_findByPk, Course_destroy, call, prop.
  cbn [body params_id currentUser set_currentUser].
  destruct (faults (log w) (FindByPk (params_id req))) as [e|] eqn:Hf; cbn.
  { now apply edit_find_fault. }
  destruct (courses (store w) !! params_id req) as [c|] eqn:Hc; cbn.
  2:{ now apply edit_not_found. }
  destruct (Z.eqb_spec (Course.userId c) (User.id u)) as [Ho|Ho]; cbn.
  2:{ now apply (edit_forbidden (DeleteCourse req) u w c). }
  destruct (faults (log w ++ [FindByPk (params_id req)])
              (CourseDestroy (Course.id c))) as [e|] eqn:Hg; cbn.
  - now apply (edit_mutation_fault (DeleteCourse req) u w c e).
  - now apply (edit_applied (DeleteCourse req) u w c).
Qed.

(** A run of an editing endpoint: the gate refuses or fails, and the tables
    stay as they are, or it admits a principal and the handler runs. *)
Lemma edit_endpoint_run (ep : endpoint) (w : world) r w' :
  edits ep = true ->
  api ep w = (r, w') ->
  (store w' = store w
   /\ (r = Ok unauthorized /\ credential_problem (header_of ep) w
       \/ exists e, r = Throw e /\ gate_fault (header_of ep) w e))
  \/ (exists u w1, authenticates (header_of ep) w u
        /\ store w1 = store w /\ edit_run ep u w1 r w').
Proof.
  intros Hed E.
  destruct ep as [req|req|req|req|req|req|req]; try discriminate Hed;
    cbn [api header_of target_of] in *.
  - unfold PUT_course, chain, bind in E.
    destruct (authenticateUser req w) as [[[req'|res]|e] w1] eqn:G;
      destruct (gate_outcome req w _ w1 G)
        as [Hs [[Hr Hp]|[(e' & Hr & Hp)|(u & Hr & Hp)]]];
      try discriminate Hr; injection Hr as Hr; subst.
    + right. exists u, w1. repeat split; try assumption.
      pose proof (put_course_run req u w1) as R.
      rewrite E in R. exact R.
    + injection E as <- <-. left. auto.
    + injection E as <- <-. left. split; [assumption|]. right. eauto.
  - unfold DELETE_course, chain, bind in E.
    destruct (authenticateUser req w) as [[[req'|res]|e] w1] eqn:G;
      destruct (gate_outcome req w _ w1 G)
        as [Hs [[Hr Hp]|[(e' & Hr & Hp)|(u & Hr & Hp)]]];
      try discriminate Hr; injection Hr as Hr; subst.
    + right. exists u, w1. repeat split; try assumption.
      pose proof (delete_course_run req u w1) as R.
      rewrite E in R. exact R.
    + injection E as <- <-. left. auto.
    + injection E as <- <-. left. split; [assumption|]. right. eauto.
Qed.

Lemma authenticates_unique header w u u' :
  authenticates header w u -> authenticates header w u' -> u' = u.
Proof. intros (c & Hc & Hu & _) (c' & Hc' & Hu' & _). congruence. Qed.

Lemma authenticates_no_problem header w u :
  authenticates header w u -> ~ credential_problem header w.
Proof.
  intros (c & Hc & Hu & Hok). unfold credential_problem.
  rewrite Hc, Hu. congruence.
Qed.

Lemma reliable_no_fault header w e : reliable -> ~ gate_fault header w e.
Proof.
  intros Hrel (c & _ & [Hf|(_ & u & _ & Hf)]); rewrite Hrel in Hf; discriminate.
Qed.

Lemma valid_errors_of ep : edits ep = true -> (valid ep <-> errors_of ep = []).
Proof. destruct ep; cbn; try discriminate; intuition. Qed.

(** The endpoints that neither create nor edit leave the course table as
    it is. *)
Lemma courses_untouched (ep : endpoint) (w : world) r w' :
  creates ep = false -> edits ep = false ->
  api ep w = (r, w') ->
  courses (store w') = courses (store w).
Proof.
  intros Hc He E.
  destruct ep as [req|req|req|req|req|req|req]; try discriminate;
    cbn [api] in E.
  - unfold GET_users, chain, bind in E.
    destruct (authenticateUser req w) as [[[req'|res]|e] w1] eqn:G;
      destruct (gate_outcome req w _ w1 G) as [Hs _].
    + unfold asyncHandler, get_users_handler, try_catch, bind, prop in E.
      destruct (currentUser req'); cbn in E; injection E as <- <-;
        now rewrite Hs.
    + injection E as <- <-. now rewrite Hs.
    + injection E as <- <-. now rewrite Hs.
  - unfold POST_users, asyncHandler, post_users_handler, try_catch, bind,
      bcryptjs_hashSync, User_create, call, throw, ret in E.
    cbn [b_firstName b_lastName b_emailAddress b_password set_password] in E.
    repeat (case_match; simplify_eq; try reflexivity); cbn in *; simplify_eq; try reflexivity.
  - unfold GET_courses, asyncHandler, get_courses_handler, try_catch, bind,
      Course_findAll, call, ret in E.
    repeat (case_match; simplify_eq; try reflexivity); cbn in *; simplify_eq; try reflexivity.
  - unfold GET_course, asyncHandler, get_course_handler, try_catch, bind,
      Course_findByPk_with, call, ret in E.
    repeat (case_match; simplify_eq; try reflexivity); cbn in *; simplify_eq; try reflexivity.
Qed.

(** A failure of the lookup or of the comparison leaves the gate as the
    exception it is. *)
Lemma gate_fault_throws {B} (req : request B) (w : world) (e : error) :
  gate_fault (authorization req) w e ->
  exists w1, authenticateUser req w = (Throw e, w1) /\ store w1 = store w.
Proof.
  intros (c & Hc & [Hf|(Hf & u & Hu & Hg)]); eexists; split.
  - apply gate_run_eq. now apply (run_lookup_fault req w c e).
  - reflexivity.
  - apply gate_run_eq. now apply (run_compare_fault req w c u e).
  - reflexivity.
Qed.

Lemma get_users_handler_run (req : request unit) (u : User.t) (w : world) :
  asyncHandler get_users_handler (set_currentUser u req) w
  = (Ok (res_status 200 (res_json (profile u) res0)), w).
Proof. reflexivity. Qed.

(** The statuses that the handler of [POST /courses] can answer. *)
Lemma post_courses_statuses (req : request CourseBody) (w : world) res w' :
  asyncHandler post_courses_handler req w = (Ok res, w') ->
  statusCode res = 400 \/ statusCode res = 201 \/ statusCode res = 500.
Proof.
  unfold asyncHandler, post_courses_handler, try_catch, bind, Course_create,
    call, throw, ret.
  intros E.
  repeat (case_match; simplify_eq); cbn; auto.
Qed.

Lemma post_users_statuses (req : request UserBody) (w : world) res w' :
  POST_users req w = (Ok res, w') ->
  statusCode res = 400 \/ statusCode res = 201 \/ statusCode res = 422
  \/ statusCode res = 500.
Proof.
  unfold POST_users, asyncHandler, post_users_handler, try_catch, bind,
    bcryptjs_hashSync, User_create, call, throw, ret.
  intros E.
  repeat (case_match; simplify_eq); cbn; auto.
Qed.

Lemma get_courses_statuses (req : request unit) (w : world) res w' :
  GET_courses req w = (Ok res, w') ->
  statusCode res = 200 \/ statusCode res = 500.
Proof.
  unfold GET_courses, asyncHandler, get_courses_handler, try_catch, bind,
    Course_findAll, call, ret.
  intros E.
  repeat (case_match; simplify_eq); cbn; auto.
Qed.

Lemma get_course_statuses (req : request unit) (w : world) res w' :
  GET_course req w = (Ok res, w') ->
  statusCode res = 200 \/ statusCode res = 404 \/ statusCode res = 500.
Proof.
  unfold GET_course, asyncHandler, get_course_handler, try_catch, bind,
    Course_findByPk_with, call, ret.
  intros E.
  repeat (case_match; simplify_eq); cbn; auto.
Qed.

Lemma edit_run_statuses (ep : endpoint) (u : User.t) (w : world) res w' :
  edit_run ep u w (Ok res) w' ->
  (statusCode res = 400 \/ statusCode res = 500 \/ statusCode res = 404
   \/ statusCode res = 204)
  \/ (statusCode res = 403
      /\ exists c, courses (store w) !! target_of ep = Some c
           /\ Course.userId c <> User.id u).
Proof.
  intros R.
  inversion R as [V|e V Hf|V Hf Hc|c V Hf Hc Ho|c e V Hf Hc Ho Hg
                 |c V Hf Hc Ho Hg]; subst; cbn; auto 6.
  right. split; [destruct ep; reflexivity|]. eauto.
Qed.

(** A run of a protected endpoint: the gate refuses, or fails, or admits a
    principal and the handler of the endpoint runs. *)
Lemma protected_cases (ep : endpoint) (w : world) r w' :
  protected ep = true ->
  api ep w = (r, w') ->
  (store w' = store w /\ r = Ok unauthorized
   /\ credential_problem (header_of ep) w)
  \/ (store w' = store w
      /\ exists e, r = Throw e /\ gate_fault (header_of ep) w e)
  \/ (exists u w1,
        authenticates (header_of ep) w u /\ store w1 = store w
        /\ match ep with
           | GetUsers req =>
               r = Ok (res_status 200 (res_json (profile u) res0))
           | PostCourses req =>
               asyncHandler post_courses_handler (set_currentUser u req) w1
               = (r, w')
           | _ => edit_run ep u w1 r w'
           end).
Proof.
  intros Hp E.
  destruct (edits ep) eqn:Hed.
  { destruct (edit_endpoint_run ep w r w' Hed E)
      as [[Hs [[-> Hc]|(e & -> & Hf)]]|(u & w1 & Hu & Hs & R)].
    - left. auto.
    - right; left. eauto.
    - right; right. exists u, w1. destruct ep; try discriminate; auto. }
  destruct ep as [req|req|req|req|req|req|req]; try discriminate;
    cbn [api header_of] in *.
  - unfold GET_users, chain, bind in E.
    destruct (authenticateUser req w) as [[[req'|res]|e] w1] eqn:G;
      destruct (gate_outcome req w _ w1 G)
        as [Hs [[Hr Hc]|[(e' & Hr & Hc)|(u & Hr & Hc)]]];
      try discriminate Hr; injection Hr as Hr; subst.
    + rewrite get_users_handler_run in E. injection E as <- <-.
      right; right. exists u, w1. auto.
    + injection E as <- <-. left. auto.
    + injection E as <- <-. right; left. eauto.
  - unfold POST_courses, chain, bind in E.
    destruct (authenticateUser req w) as [[[req'|res]|e] w1] eqn:G;
      destruct (gate_outcome req w _ w1 G)
        as [Hs [[Hr Hc]|[(e' & Hr & Hc)|(u & Hr & Hc)]]];
      try discriminate Hr; injection Hr as Hr; subst.
    + right; right. exists u, w1. auto.
    + injection E as <- <-. left. auto.
    + injection E as <- <-. right; left. eauto.
Qed.

(** The handler of [POST /courses] changes the course table only by adding,
    under the next id, a row whose [userId] is the one of the body. *)
Lemma post_courses_change (req : request CourseBody) (w : world) r w' :
  asyncHandler post_courses_handler req w = (r, w') ->
  courses (store w') <> courses (store w) ->
  exists c,
    courses (store w') = <[next_course_id (store w) := c]> (courses (store w))
    /\ b_userId (body req) = Some (Course.userId c).
Proof.
  unfold asyncHandler, post_courses_handler, try_catch, bind, Course_create,
    call, throw, ret.
  intros E Hch.
  repeat (case_match; simplify_eq); cbn in *; try contradiction.
  eexists. split; reflexivity.
Qed.

End Endpoints.

(* ===================================================================== *)
(** ** Ownership *)
(* ===================================================================== *)

Section Ownership.

Context {env : Collaborators}.
Local Open Scope string_scope.

(** C2, as amended.  The course table changes only by a request whose
    header proves the identity of a principal [u], and in one of two ways.
    An edit ([PUT] or [DELETE /courses/:id]) is applied only to a target
    course [c] with [c.userId = u.id], and the change is that edit of [c].
    A creation ([POST /courses]) adds one row under the next id; it is not
    gated by ownership, and the [userId] of the new row is the one that the
    body carries. *)
Theorem course_changes (ep : endpoint) (w : world)
    (r : result response) (w' : world) :
  api ep w = (r, w') ->
  courses (store w') <> courses (store w) ->
  exists u,
    authenticates (header_of ep) w u
    /\ ((edits ep = true
         /\ exists c,
              courses (store w) !! target_of ep = Some c
              /\ Course.userId c = User.id u
              /\ courses (store w') = applied ep c (courses (store w)))
        \/ (creates ep = true
            /\ exists c,
                 courses (store w')
                 = <[next_course_id (store w) := c]> (courses (store w))
                 /\ body_owner ep = Some (Course.userId c))).
Proof.
  intros E Hch.
  destruct (edits ep) eqn:Hed.
  - destruct (edit_endpoint_run ep w r w' Hed E)
      as [[Hs _]|(u & w1 & Hu & Hs & R)].
    { exfalso. apply Hch. now rewrite Hs. }
    destruct R as [V|e V Hf|V Hf Hc|c V Hf Hc Ho|c e V Hf Hc Ho Hg
                  |c V Hf Hc Ho Hg];
      try (exfalso; apply Hch; cbn; now rewrite Hs).
    exists u. split; [assumption|]. left. split; [reflexivity|].
    exists c. rewrite <- Hs. repeat split; assumption.
  - destruct (creates ep) eqn:Hcr.
    2:{ exfalso. apply Hch. now apply (courses_untouched ep w r w'). }
    destruct ep as [req|req|req|req|req|req|req]; try discriminate Hcr.
    destruct (protected_cases (PostCourses req) w r w' eq_refl E)
      as [(Hs & _)|[(Hs & _)|(u & w1 & Hu & Hs & R)]];
      try (exfalso; apply Hch; now rewrite Hs).
    exists u. split; [assumption|]. right. split; [reflexivity|].
    rewrite <- Hs in *.
    now apply (post_courses_change (set_currentUser u req) w1 r w').
Qed.

(** C3, as amended.  For a principal [u] whose identity the header proves,
    a target course [c] that exists, a body that the validators accept (on
    [PUT]; [DELETE] has none) and collaborators that do not fail: if
    [c.userId = u.id] the edit is applied and the answer is 204 with no
    content; otherwise the tables stay as they are and the answer is 403
    with the message of the endpoint. *)
Theorem ownership_decision (ep : endpoint) (w : world)
    (u : User.t) (c : Course.t) :
  edits ep = true ->
  reliable ->
  authenticates (header_of ep) w u ->
  valid ep ->
  courses (store w) !! target_of ep = Some c ->
  exists res w',
    api ep w = (Ok res, w')
    /\ (Course.userId c = User.id u ->
          res = no_content
          /\ store w' = with_courses (applied ep c (courses (store w))) (store w)
          /\ In (mutation_call ep c) (log w'))
    /\ (Course.userId c <> User.id u ->
          res = forbidden ep /\ store w' = store w)
    /\ (statusCode res = 204 <-> Course.userId c = User.id u)
    /\ (statusCode res = 403 <-> Course.userId c <> User.id u).
Proof.
  intros Hed Hrel Hu Hv Hc.
  destruct (api ep w) as [r w'] eqn:E.
  destruct (edit_endpoint_run ep w r w' Hed E)
    as [[Hs [[_ Hp]|(e & _ & Hp)]]|(u' & w1 & Hu' & Hs & R)].
  { destruct (authenticates_no_problem _ _ _ Hu Hp). }
  { destruct (reliable_no_fault _ _ _ Hrel Hp). }
  rewrite (authenticates_unique _ _ _ _ Hu Hu') in R. clear u' Hu'.
  rewrite <- Hs in Hc.
  apply (valid_errors_of ep Hed) in Hv.
  assert (H403 : statusCode (forbidden ep) = 403)
    by (destruct ep; reflexivity).
  destruct R as [V|e V Hf|V Hf Hn|c' V Hf Hc' Ho|c' e V Hf Hc' Ho Hg
                |c' V Hf Hc' Ho Hg];
    try congruence;
    try (rewrite Hrel in Hf; discriminate);
    try (rewrite Hrel in Hg; discriminate);
    assert (c' = c) by congruence; subst c'.
  - exists (forbidden ep), (record (FindByPk (target_of ep)) w1).
    split; [reflexivity|]. split; [intros Ho'; contradiction|].
    split; [intros _; now split|].
    rewrite H403. split; split; intros; (lia || assumption).
  - eexists no_content, _. split; [reflexivity|].
    split.
    { intros _. split; [reflexivity|]. split.
      - cbn [store with_store record]. now rewrite Hs.
      - cbn [log with_store record]. apply in_or_app. right. now left. }
    split; [intros Ho'; contradiction|].
    cbn [statusCode no_content]. split; split; intros; (lia || assumption || contradiction).
Qed.

(** C10, as amended.  For a principal whose identity the header proves and
    a target id under which the course table has no row, [PUT] and [DELETE
    /courses/:id] leave the tables as they are, whatever else happens.
    With collaborators that do not fail, the answer is the 404 with the
    not-found message when the validators accept the body, and the 400 with
    their messages when they do not ([PUT] only). *)
Theorem missing_course (ep : endpoint) (w : world) (u : User.t)
    (r : result response) (w' : world) :
  edits ep = true ->
  authenticates (header_of ep) w u ->
  courses (store w) !! target_of ep = None ->
  api ep w = (r, w') ->
  store w' = store w
  /\ (reliable -> valid ep -> r = Ok not_found /\ statusCode not_found = 404)
  /\ (reliable -> ~ valid ep -> r = Ok (bad_request (errors_of ep))).
Proof.
  intros Hed Hu Hnone E.
  destruct (edit_endpoint_run ep w r w' Hed E)
    as [[Hs [[_ Hp]|(e & _ & Hp)]]|(u' & w1 & Hu' & Hs & R)].
  - destruct (authenticates_no_problem _ _ _ Hu Hp).
  - split; [assumption|].
    split; intros Hrel; now apply reliable_no_fault in Hp.
  - rewrite <- Hs in Hnone.
    destruct R as [V|e V Hf|V Hf Hc|c V Hf Hc Ho|c e V Hf Hc Ho Hg
                  |c V Hf Hc Ho Hg]; try congruence; cbn [store record].
    + split; [assumption|]. split; intros Hrel Hv; [|reflexivity].
      now apply (valid_errors_of ep Hed) in Hv.
    + split; [assumption|].
      split; intros Hrel; rewrite Hrel in Hf; discriminate.
    + split; [assumption|]. split; intros Hrel Hv; [now split|].
      now apply (valid_errors_of ep Hed) in V.
Qed.

End Ownership.

(* ===================================================================== *)
(** ** Failures of the collaborators *)
(* ===================================================================== *)

Section Faults.

Context {env : Collaborators}.
Local Open Scope string_scope.

(** C6. A failure of the principal lookup or of the hash comparison is not
    answered by the gate: the exception leaves the middleware chain of
    every protected endpoint as it is, no response is written for it, and
    the tables are untouched.  Conversely an answer 401 is the answer
    [unauthorized] of the gate to a header that does not prove an identity,
    and an answer 403 is that of an editing endpoint to a principal who
    does not own the target course. *)
Theorem faults_are_not_refusals (ep : endpoint) (w : world)
    (r : result response) (w' : world) :
  api ep w = (r, w') ->
  (forall e, protected ep = true -> gate_fault (header_of ep) w e ->
     r = Throw e /\ store w' = store w)
  /\ (forall res, r = Ok res ->
        (statusCode res = 401 ->
           protected ep = true /\ res = unauthorized
           /\ credential_problem (header_of ep) w)
        /\ (statusCode res = 403 ->
              edits ep = true
              /\ ownership_problem (header_of ep) (target_of ep) w)).
Proof.
  intros E. split.
  - intros e Hp Hf.
    assert (X : exists w1, api ep w = (Throw e, w1) /\ store w1 = store w).
    { destruct ep as [req|req|req|req|req|req|req]; try discriminate;
        cbn [api header_of] in *;
        destruct (gate_fault_throws req w e Hf) as (w1 & G & Hs);
        exists w1; (split; [|assumption]);
        now apply chain_throw. }
    destruct X as (w1 & E' & Hs). rewrite E in E'. now injection E' as -> ->.
  - intros res ->.
    destruct (protected ep) eqn:Hp.
    + destruct (protected_cases ep w _ w' Hp E)
        as [(Hs & Hr & Hc)|[(Hs & e & Hr & Hc)|(u & w1 & Hu & Hs & R)]];
        try discriminate Hr.
      * injection Hr as ->. split; [auto|]. cbn. discriminate.
      * destruct ep as [req|req|req|req|req|req|req]; try discriminate Hp.
        -- injection R as ->. cbn. split; discriminate.
        -- apply post_courses_statuses in R. cbn. split; intros; lia.
        -- apply edit_run_statuses in R as [R|(R & c & Hc & Ho)].
           ++ split; intros; lia.
           ++ split; [intros; lia|]. intros _. split; [reflexivity|].
              exists u, c. rewrite <- Hs. auto.
        -- apply edit_run_statuses in R as [R|(R & c & Hc & Ho)].
           ++ split; intros; lia.
           ++ split; [intros; lia|]. intros _. split; [reflexivity|].
              exists u, c. rewrite <- Hs. auto.
    + destruct ep as [req|req|req|req|req|req|req]; try discriminate Hp;
        cbn [api] in E.
      * apply post_users_statuses in E. split; intros; lia.
      * apply get_courses_statuses in E. split; intros; lia.
      * apply get_course_statuses in E. split; intros; lia.
Qed.

End Faults.

(* ===================================================================== *)
(** ** The stored password *)
(* ===================================================================== *)

Section Password.

Context {env : Collaborators}.
Local Open Scope string_scope.

(** C8. When [POST /api/users] answers 201, the body carried a password
    [p], exactly one row was added to the user table, and its password
    column holds what [bcryptjs.hashSync] returned for [p] (so it holds [p]
    only if the hash of [p] is [p] itself); the other columns are the
    fields of the body.  The answer has the [Location] header [/] and no
    content. *)
Theorem created_user_is_hashed (req : request UserBody) (w : world)
    (res : response) (w' : world) :
  POST_users req w = (Ok res, w') ->
  statusCode res = 201 ->
  exists p u,
    b_password (body req) = Some p
    /\ users (store w') = (users (store w) ++ [u])%list
    /\ User.password u = hashSync (seed w) p
    /\ (User.password u = p -> hashSync (seed w) p = p)
    /\ b_firstName (body req) = Some (User.firstName u)
    /\ b_lastName (body req) = Some (User.lastName u)
    /\ b_emailAddress (body req) = Some (User.emailAddress u)
    /\ In (HashSync (Some p)) (log w')
    /\ res = res_end (res_status 201 (res_location "/" res0))
    /\ locationHeader res = Some "/"
    /\ content res = Ended.
Proof.
  unfold POST_users, asyncHandler, post_users_handler, try_catch, bind,
    bcryptjs_hashSync, User_create, call, throw, ret.
  cbn [b_firstName b_lastName b_emailAddress b_password set_password].
  intros E S.
  repeat (case_match; simplify_eq); cbn in S; try discriminate S.
  match goal with
  | Hp : b_password (body req) = Some ?p |- _ => exists p
  end.
  eexists. split; [reflexivity|]. split; [reflexivity|].
  repeat split; try reflexivity; cbn.
  - intros E. exact E.
  - apply in_or_app. left. apply in_or_app. right. now left.
Qed.

(** *** Reading *)

Lemma find_map {A} (g : A -> A) (p : A -> bool) (l : list A) :
  (forall a, p (g a) = p a) ->
  List.find p (map g l) = g <$> List.find p l.
Proof.
  intros Hp. induction l as [|a l IH]; cbn; [reflexivity|].
  rewrite Hp. destruct (p a); [reflexivity|exact IH].
Qed.

Lemma lookup_repassword (f : User.t -> string) (d : db) (e : string) :
  lookup e (repassword f d)
  = (fun u => User.with_password (f u) u) <$> lookup e d.
Proof. unfold lookup. cbn. now apply find_map. Qed.

Lemma included_repassword (f : User.t -> string) (d : db) (c : Course.t) :
  included owner_attributes (repassword f d) c = included owner_attributes d c.
Proof.
  unfold included. cbn [users repassword].
  rewrite find_map by reflexivity.
  destruct (List.find _ (users d)) as [u|]; reflexivity.
Qed.

Lemma projected_repassword (f : User.t -> string) (d : db) (c : Course.t) :
  projected course_attributes owner_attributes (repassword f d) c
  = projected course_attributes owner_attributes d c.
Proof. unfold projected. now rewrite included_repassword. Qed.

Lemma included_shape (d : db) (c : Course.t) :
  included owner_attributes d c = JNull
  \/ (keys (included owner_attributes d c) = owner_attributes
      /\ has_key "password" (included owner_attributes d c) = false).
Proof.
  unfold included. destruct (List.find _ (users d)) as [u|]; [right|left];
    split; reflexivity.
Qed.

Lemma projected_hides_password (d : db) (c : Course.t) :
  has_key "password" (projected course_attributes owner_attributes d c) = false.
Proof.
  unfold projected, included.
  destruct (List.find _ (users d)) as [u|]; destruct c as [i t ds [?|] [?|] o];
    reflexivity.
Qed.

Lemma projected_owner (d : db) (c : Course.t) :
  owner_of (projected course_attributes owner_attributes d c)
  = Some (included owner_attributes d c).
Proof. destruct c as [i t ds [?|] [?|] o]; reflexivity. Qed.

Lemma no_key_in_array (k : string) (g : Z * Course.t -> json)
    (rows : list (Z * Course.t)) :
  (forall row, has_key k (g row) = false) ->
  has_key k (JArr (map g rows)) = false.
Proof.
  intros Hg. cbn. induction rows as [|row rows IH]; cbn; [reflexivity|].
  now rewrite Hg, IH.
Qed.

(** C9. A 200 of a read endpoint carries no field named [password]
    anywhere in its body, and the same request on the same world with the
    stored passwords replaced by any others, if it is answered 200 too, is
    answered by the same response.  [GET /api/users] sends exactly the
    object [{id, firstName, lastName, emailAddress}] of the principal whose
    identity the header proves; in the course documents of [GET
    /api/courses] and [GET /api/courses/:id] the owner under [User] is
    [null] or an object with exactly the fields [id], [firstName],
    [lastName] and [emailAddress]. *)
Theorem reads_hide_password (ep : endpoint) (f : User.t -> string)
    (w : world) (res : response) (w' : world) :
  reads ep = true ->
  api ep w = (Ok res, w') ->
  statusCode res = 200 ->
  exposes "password" res = false
  /\ (forall res2 w2',
        api ep (with_store (repassword f (store w)) w) = (Ok res2, w2') ->
        statusCode res2 = 200 ->
        res2 = res)
  /\ match ep with
     | GetUsers _ =>
         exists u, authenticates (header_of ep) w u
                   /\ content res = Json (profile u)
     | _ =>
         forall doc o,
           In doc (documents res) -> owner_of doc = Some o ->
           o = JNull \/ keys o = owner_attributes
     end.
Proof.
  intros Hr E S.
  destruct ep as [req|req|req|req|req|req|req]; try discriminate Hr.
  - (* GET /users *)
    destruct (protected_cases (GetUsers req) w _ w' eq_refl E)
      as [(_ & Hres & _)|[(_ & e & Hres & _)|(u & w1 & Hu & _ & Hres)]];
      try discriminate Hres; injection Hres as ->; [discriminate S|].
    split; [reflexivity|]. split; [|exists u; now split].
    intros res2 w2' E2 S2.
    destruct (protected_cases (GetUsers req) _ _ w2' eq_refl E2)
      as [(_ & Hres & _)|[(_ & e & Hres & _)|(u2 & w2 & Hu2 & _ & Hres)]];
      try discriminate Hres; injection Hres as ->; [discriminate S2|].
    destruct Hu as (c & Hc & Hl & _). destruct Hu2 as (c2 & Hc2 & Hl2 & _).
    cbn [header_of] in *. rewrite Hc in Hc2. injection Hc2 as <-.
    cbn [store with_store] in Hl2.
    rewrite lookup_repassword, Hl in Hl2. injection Hl2 as <-.
    reflexivity.
  - (* GET /courses *)
    cbn [api] in *.
    unfold GET_courses, asyncHandler, get_courses_handler, try_catch, bind,
      Course_findAll, call, ret in *.
    cbn [log store with_store record] in *.
    destruct (faults (log w) FindAll) as [e|] eqn:Hf;
      injection E as <- <-; [discriminate S|].
    split; [|split].
    + unfold exposes. cbn [content res_json].
      apply no_key_in_array. intros row. apply projected_hides_password.
    + intros res2 w2' E2 S2. injection E2 as <- <-.
      do 2 f_equal. apply map_ext. intros row.
      apply projected_repassword.
    + intros doc o Hin Ho. cbn in Hin.
      apply in_map_iff in Hin as (row & <- & _).
      rewrite projected_owner in Ho. injection Ho as <-.
      destruct (included_shape (store w) row.2) as [->|[-> _]]; auto.
  - (* GET /courses/:id *)
    cbn [api] in *.
    unfold GET_course, asyncHandler, get_course_handler, try_catch, bind,
      Course_findByPk_with, call, ret in *.
    cbn [log store with_store record courses repassword] in *.
    destruct (faults (log w) (FindByPk (params_id req))) as [e|] eqn:Hf;
      [injection E as <- <-; discriminate S|].
    destruct (courses (store w) !! params_id req) as [c|] eqn:Hc;
      cbn in E; injection E as <- <-; [|discriminate S].
    split; [|split].
    + unfold exposes. cbn [content res_json].
      apply projected_hides_password.
    + intros res2 w2' E2 S2. cbn in E2. injection E2 as <- <-.
      now rewrite projected_repassword.
    + intros doc o Hin Ho.
      assert (doc = projected course_attributes owner_attributes (store w) c)
        as ->.
      { cbn in Hin. unfold projected in Hin. cbn in Hin. intuition. }
      rewrite projected_owner in Ho. injection Ho as <-.
      destruct (included_shape (store w) c) as [->|[-> _]]; auto.
Qed.

End Password.

(* ===================================================================== *)
(** ** Further properties of the routes *)
(* ===================================================================== *)

Section Further.

Context {env : Collaborators}.
Local Open Scope string_scope.

(** *** What a request does to the tables *)

(** The reads leave the tables and the entropy position as they are. *)
Lemma reads_keep_world (ep : endpoint) (w : world) r w' :
  reads ep = true ->
  api ep w = (r, w') ->
  store w' = store w /\ seed w' = seed w.
Proof.
  intros Hr E.
  destruct ep as [req|req|req|req|req|req|req]; try discriminate Hr;
    cbn [api] in E.
  - unfold GET_users, chain, bind in E.
    destruct (authenticateUser req w) as [[[req'|res]|e] w1] eqn:G;
      apply authenticateUser_inv, gate_run_store in G.
    + unfold asyncHandler, get_users_handler, try_catch, bind, prop in E.
      destruct (currentUser req'); cbn in E; injection E as <- <-;
        exact G.
    + injection E as <- <-. exact G.
    + injection E as <- <-. exact G.
  - unfold GET_courses, asyncHandler, get_courses_handler, try_catch, bind,
      Course_findAll, call, ret in E.
    repeat (case_match; simplify_eq); cbn; auto.
  - unfold GET_course, asyncHandler, get_course_handler, try_catch, bind,
      Course_findByPk_with, call, ret in E.
    repeat (case_match; simplify_eq); cbn; auto.
Qed.

Lemma post_users_effect (req : request UserBody) (w : world) r w' :
  POST_users req w = (r, w') ->
  effect (PostUsers req) (store w) r (store w').
Proof.
  unfold POST_users, asyncHandler, post_users_handler, try_catch, bind,
    bcryptjs_hashSync, User_create, call, throw, ret.
  cbn [b_firstName b_lastName b_emailAddress b_password set_password].
  intros E.
  repeat (case_match; simplify_eq); cbn [store with_store with_seed record];
    try apply effect_none.
  eapply (effect_user (PostUsers req) (store w) _ req); reflexivity.
Qed.

Lemma post_courses_effect (req req' : request CourseBody) (w : world) r w' :
  body req' = body req ->
  asyncHandler post_courses_handler req' w = (r, w') ->
  effect (PostCourses req) (store w) r (store w').
Proof.
  unfold asyncHandler, post_courses_handler, try_catch, bind, Course_create,
    call, throw, ret.
  intros Hb E. rewrite Hb in E.
  repeat (case_match; simplify_eq); cbn [store with_store record];
    try apply effect_none.
  eapply (effect_course (PostCourses req) (store w) _ req);
    [reflexivity|reflexivity|cbn; first [eassumption|symmetry; eassumption|reflexivity]].
Qed.

Lemma edit_run_effect (ep : endpoint) (u : User.t) (w : world) r w' :
  edits ep = true ->
  edit_run ep u w r w' ->
  effect ep (store w) r (store w').
Proof.
  intros Hed R.
  destruct R as [V|e V Hf|V Hf Hc|c V Hf Hc Ho|c e V Hf Hc Ho Hg
                |c V Hf Hc Ho Hg];
    cbn [store with_store record]; try apply effect_none.
  now apply effect_edit.
Qed.

(** Every run of every endpoint does to the tables one of the four things
    of [effect]. *)
Lemma api_effect (ep : endpoint) (w : world) r w' :
  api ep w = (r, w') ->
  effect ep (store w) r (store w').
Proof.
  intros E.
  destruct (reads ep) eqn:Hr.
  { destruct (reads_keep_world ep w r w' Hr E) as [-> _]. apply effect_none. }
  destruct (edits ep) eqn:Hed.
  { destruct (edit_endpoint_run ep w r w' Hed E)
      as [[-> _]|(u & w1 & _ & Hs & R)]; [apply effect_none|].
    rewrite <- Hs. now apply (edit_run_effect ep u). }
  destruct ep as [req|req|req|req|req|req|req]; try discriminate.
  - now apply post_users_effect.
  - destruct (protected_cases (PostCourses req) w r w' eq_refl E)
      as [(-> & _)|[(-> & _)|(u & w1 & _ & Hs & R)]];
      try apply effect_none.
    rewrite <- Hs.
    now apply (post_courses_effect req (set_currentUser u req)).
Qed.

(** X1. The tables change only together with a 201 or a 204 without
    content: a request that is answered anything else (400, 401, 403, 404,
    422, 500), or that ends in an exception, leaves the tables exactly as
    they were. *)
Theorem failures_change_nothing (ep : endpoint) (w : world)
    (r : result response) (w' : world) :
  api ep w = (r, w') ->
  store w' <> store w ->
  exists res,
    r = Ok res
    /\ (statusCode res = 201 \/ statusCode res = 204)
    /\ content res = Ended.
Proof.
  intros E Hch. apply api_effect in E.
  destruct E as [r|u req _ _|c req _ _ _|c _ _];
    [contradiction| | |]; eexists; (split; [reflexivity|]); cbn; auto.
Qed.

Lemma keyed_applied (ep : endpoint) (d : db) (c : Course.t) :
  keyed d -> keyed (with_courses (applied ep c (courses d)) d).
Proof.
  intros Hk k c'. unfold with_courses. cbn [courses].
  destruct ep as [req|req|req|req|req|req|req]; cbn [applied];
    try apply Hk.
  - rewrite lookup_alter. case_decide as Hd.
    + subst k. destruct (courses d !! Course.id c); cbn; [|discriminate].
      intros [= <-]. reflexivity.
    + apply Hk.
  - rewrite lookup_delete. case_decide; [discriminate|apply Hk].
Qed.

Lemma applied_domain (ep : endpoint) (d : db) (c c' : Course.t) (k : Z) :
  applied ep c (courses d) !! k = Some c' -> is_Some (courses d !! k).
Proof.
  destruct ep as [req|req|req|req|req|req|req]; cbn [applied]; eauto.
  - rewrite lookup_alter. case_decide as Hd; [|eauto].
    subst k. destruct (courses d !! Course.id c); cbn; [eauto|discriminate].
  - rewrite lookup_delete. case_decide; [discriminate|eauto].
Qed.

(** The primary keys stay sound: if every course sits under its own id,
    both sequences are ahead of every id in use and no two users share an
    id, then the same holds after any request, whatever its outcome. *)
Lemma well_formed_preserved (ep : endpoint) (w : world)
    (r : result response) (w' : world) :
  well_formed (store w) ->
  api ep w = (r, w') ->
  well_formed (store w').
Proof.
  intros (Hk & [Hac Hau] & Hn) E. apply api_effect in E.
  destruct E as [r|u req _ Hid|c req _ Hid _|c _ Hc].
  - repeat split; assumption.
  - repeat split; cbn.
    + exact Hk.
    + exact Hac.
    + intros u' Hin. apply in_app_or in Hin as [Hin|[<-|[]]].
      * specialize (Hau u' Hin). lia.
      * lia.
    + unfold unique_ids in *. cbn. rewrite map_app. cbn.
      apply NoDup_app. split; [exact Hn|]. split.
      * intros i Hi [Hi'|[]]%list_elem_of_In. subst i.
        apply list_elem_of_In, in_map_iff in Hi as (u' & Hu' & Hin).
        specialize (Hau u' Hin). lia.
      * apply NoDup_singleton.
  - repeat split; cbn [with_course courses users next_course_id next_user_id].
    + intros k c'. cbn. rewrite lookup_insert. case_decide as Hd.
      * intros [= <-]. congruence.
      * apply Hk.
    + intros k c'. cbn. rewrite lookup_insert. case_decide as Hd.
      * intros _. lia.
      * intros Hl. specialize (Hac k c' Hl). lia.
    + exact Hau.
    + exact Hn.
  - split; [now apply keyed_applied|]. split; [split|exact Hn]; cbn.
    + intros k c' Hl. apply applied_domain in Hl as [c'' Hl]. eauto.
    + exact Hau.
Qed.

(** X2. Behind the gate there is no answer without a proven identity:
    when a protected endpoint answers anything but the 401, the header of
    the request parses to an identifier and a secret, a row of the user
    table has that identifier as its e-mail address, and the stored hash of
    that row verifies the secret. *)
Theorem admission_is_sound (ep : endpoint) (w : world)
    (res : response) (w' : world) :
  protected ep = true ->
  api ep w = (Ok res, w') ->
  statusCode res <> 401 ->
  exists h i s u,
    header_of ep = Some h
    /\ parse h = Some (Credentials i s)
    /\ In u (users (store w))
    /\ User.emailAddress u = i
    /\ compareSync s (User.password u) = true.
Proof.
  intros Hp E Hs.
  destruct (protected_cases ep w _ w' Hp E)
    as [(_ & Hr & _)|[(_ & e & Hr & _)|(u & w1 & Hu & _ & _)]].
  - injection Hr as ->. now cbn in Hs.
  - discriminate Hr.
  - destruct Hu as ([i s] & Hc & Hl & Hok).
    unfold credentials_of in Hc.
    destruct (header_of ep) as [h|]; [|discriminate Hc].
    exists h, i, s, u. split; [reflexivity|]. split; [exact Hc|].
    unfold lookup in Hl. apply List.find_some in Hl as [Hin Heq].
    apply String.eqb_eq in Heq. auto.
Qed.

(** X3. An edit touches nothing but its target: where every course sits
    under its own id, [PUT] and [DELETE /courses/:id] leave the user table,
    both sequences and every course of another id as they were, whatever
    the outcome. *)
Theorem edit_touches_only_target (ep : endpoint) (w : world)
    (r : result response) (w' : world) :
  edits ep = true ->
  keyed (store w) ->
  api ep w = (r, w') ->
  users (store w') = users (store w)
  /\ next_user_id (store w') = next_user_id (store w)
  /\ next_course_id (store w') = next_course_id (store w)
  /\ forall k, k <> target_of ep ->
       courses (store w') !! k = courses (store w) !! k.
Proof.
  intros Hed Hk E. apply api_effect in E.
  destruct E as [r|u req -> _|c req -> _ _|c _ Hc]; try discriminate Hed.
  - repeat split; reflexivity.
  - repeat split; try reflexivity.
    intros k Hne. cbn. apply Hk in Hc.
    destruct ep as [req|req|req|req|req|req|req]; try discriminate Hed;
      cbn [applied target_of] in *.
    + rewrite lookup_alter. case_decide; [congruence|reflexivity].
    + rewrite lookup_delete. case_decide; [congruence|reflexivity].
Qed.

(** *** Signing up *)

Lemma check_nil (ok : bool) (message : string) :
  check ok message = [] <-> ok = true.
Proof. destruct ok; cbn; split; congruence. Qed.

Lemma exists_filled (value : option string) :
  exists_ true value = true <-> filled value.
Proof.
  unfold filled. destruct value as [s|]; cbn.
  - destruct (String.eqb_spec s EmptyString) as [->|Hne]; cbn; split.
    + discriminate.
    + intros (s' & [= <-] & Hs). contradiction.
    + eauto.
    + reflexivity.
  - split; [discriminate|]. intros (s & Hs & _). discriminate.
Qed.

Lemma exists_present (value : option string) :
  exists_ false value = true <-> exists s, value = Some s.
Proof.
  destruct value as [s|]; cbn; split; eauto; try discriminate.
  intros (s & Hs). discriminate.
Qed.

Lemma user_checks_nil (b : UserBody) : user_checks b = [] <-> acceptable b.
Proof.
  unfold user_checks, acceptable.
  rewrite !app_nil, !check_nil, !exists_filled. tauto.
Qed.

Lemma course_checks_post_nil (b : CourseBody) :
  course_checks_post b = [] <-> acceptable_course b.
Proof.
  unfold course_checks_post, acceptable_course.
  rewrite !app_nil, !check_nil, exists_filled, exists_present. tauto.
Qed.

Lemma course_checks_put_nil (b : CourseBody) :
  course_checks_put b = [] <-> acceptable_course b.
Proof.
  unfold course_checks_put, acceptable_course.
  rewrite !app_nil, !check_nil, exists_filled, exists_present. tauto.
Qed.

(** X4. [POST /api/users] answers 400 exactly for the bodies in which
    [firstName], [lastName], [emailAddress] or [password] is missing or
    empty, or [emailAddress] is not an e-mail address.  The 400 carries the
    messages of the validators that failed, and is sent before any
    collaborator is called: nothing is hashed, stored or logged. *)
Theorem sign_up_validation (req : request UserBody) (w : world)
    (r : result response) (w' : world) :
  POST_users req w = (r, w') ->
  (~ acceptable (body req) ->
     r = Ok (bad_request (user_checks (body req)))
     /\ user_checks (body req) <> []
     /\ w' = w)
  /\ (acceptable (body req) ->
        forall res, r = Ok res -> statusCode res <> 400).
Proof.
  intros E. split.
  - intros Hno.
    assert (Hne : user_checks (body req) <> []).
    { intros Hnil. now apply user_checks_nil in Hnil. }
    unfold POST_users, asyncHandler, post_users_handler, try_catch, bind, ret
      in E.
    destruct (user_checks (body req)) as [|m ms] eqn:V; [contradiction|].
    cbn in E. injection E as <- <-. auto.
  - intros Hok res ->. apply user_checks_nil in Hok.
    unfold POST_users, asyncHandler, post_users_handler, try_catch, bind,
      bcryptjs_hashSync, User_create, call, throw, ret in E.
    rewrite Hok in E. cbn [isEmpty negb] in E.
    repeat (case_match; simplify_eq); cbn; lia.
Qed.

(** X5. When the body is acceptable and the hashing or [User.create]
    fails, the sign-up is answered 422 with the message that the e-mail is
    taken if the error is a [SequelizeUniqueConstraintError], and 500 with
    the error as its body otherwise; no row is added. *)
Theorem sign_up_failure (req : request UserBody) (w : world)
    (p : string) (e : error) :
  acceptable (body req) ->
  b_password (body req) = Some p ->
  faults (log w) (HashSync (Some p)) = Some e
  \/ (faults (log w) (HashSync (Some p)) = None
      /\ faults (log w ++ [HashSync (Some p)])
                (UserCreate (set_password (hashSync (seed w) p) (body req)))
         = Some e) ->
  exists w',
    POST_users req w = (Ok (sign_up_error e), w')
    /\ store w' = store w.
Proof.
  intros Hok Hp Hf. apply user_checks_nil in Hok.
  unfold POST_users, asyncHandler, post_users_handler, try_catch, bind,
    bcryptjs_hashSync, User_create, call, throw, ret, sign_up_error.
  rewrite Hok, Hp. cbn [isEmpty negb].
  destruct Hf as [Hf|[Hf Hg]]; rewrite Hf; cbn.
  - destruct (String.eqb (err_name e) _); eexists; split; reflexivity.
  - rewrite Hg.
    destruct (String.eqb (err_name e) _); eexists; split; reflexivity.
Qed.

Lemma lookup_with_user (d : db) (u : User.t) (e : string) :
  lookup e d = None ->
  User.emailAddress u = e ->
  lookup e (with_user u d) = Some u.
Proof.
  unfold lookup, with_user. cbn [users]. intros Hnone He.
  induction (users d) as [|u' us IH]; cbn in *.
  - now rewrite He, String.eqb_refl.
  - destruct (String.eqb (User.emailAddress u') e); [discriminate|].
    now apply IH.
Qed.

(** X6. Sign-up, then sign-in.  With collaborators that do not fail, an
    acceptable body whose e-mail address is not yet in the user table is
    answered 201 with the [Location] header [/], and adds the row [u] with
    the next id and the fields of the body.  Afterwards, provided the
    hash that was stored verifies the password, the gate admits any request
    whose header carries that e-mail address and that password, as [u]. *)
Theorem sign_up_then_sign_in {B} (req : request UserBody) (req2 : request B)
    (w : world) (h e p : string) :
  reliable ->
  acceptable (body req) ->
  b_emailAddress (body req) = Some e ->
  b_password (body req) = Some p ->
  lookup e (store w) = None ->
  compareSync p (hashSync (seed w) p) = true ->
  authorization req2 = Some h ->
  parse h = Some (Credentials e p) ->
  exists u w1 w2,
    POST_users req w = (Ok (created "/"), w1)
    /\ store w1 = with_user u (store w)
    /\ User.id u = next_user_id (store w)
    /\ b_firstName (body req) = Some (User.firstName u)
    /\ b_lastName (body req) = Some (User.lastName u)
    /\ User.emailAddress u = e
    /\ User.password u = hashSync (seed w) p
    /\ authenticateUser req2 w1 = (Ok (Next (set_currentUser u req2)), w2).
Proof.
  intros Hrel Hok He Hp Hnone Hver Hh Hparse.
  pose proof Hok as ((f & Hf & _) & (l & Hl & _) & _).
  apply user_checks_nil in Hok.
  exists (User.Build (next_user_id (store w)) f l e (hashSync (seed w) p)).
  do 2 eexists. split.
  { unfold POST_users, asyncHandler, post_users_handler, try_catch, bind,
      bcryptjs_hashSync, User_create, call, throw, ret.
    rewrite Hok, Hp. cbn [isEmpty negb]. rewrite !Hrel.
    cbn [b_firstName b_lastName b_emailAddress b_password set_password].
    rewrite Hf, Hl, He. reflexivity. }
  split; [reflexivity|]. split; [reflexivity|]. split; [exact Hf|].
  split; [exact Hl|]. split; [reflexivity|]. split; [reflexivity|].
  apply gate_run_eq.
  apply (run_authenticated req2 _ (Credentials e p)
           (User.Build (next_user_id (store w)) f l e (hashSync (seed w) p))).
  - unfold auth. now rewrite Hh.
  - apply Hrel.
  - cbn [name store with_store with_seed record].
    now apply lookup_with_user.
  - apply Hrel.
  - exact Hver.
Qed.

(** *** Exceptions *)

Lemma asyncHandler_answers {B} (cb : request B -> M response)
    (req : request B) (w : world) (e : error) (w' : world) :
  asyncHandler cb req w <> (Throw e, w').
Proof.
  unfold asyncHandler, try_catch, ret.
  destruct (cb req w) as [[res|e'] w1]; discriminate.
Qed.

(** X7. The only exception that leaves a route is one of the gate: if a
    request ends in an exception instead of a response, the endpoint is
    behind [authenticateUser] and the exception is the failure of its
    lookup or of its hash comparison; every failure inside a handler is
    answered instead.  The tables are as they were. *)
Theorem uncaught_only_from_gate (ep : endpoint) (w : world)
    (e : error) (w' : world) :
  api ep w = (Throw e, w') ->
  protected ep = true
  /\ gate_fault (header_of ep) w e
  /\ store w' = store w.
Proof.
  intros E.
  destruct (protected ep) eqn:Hp.
  - split; [reflexivity|].
    destruct (protected_cases ep w _ w' Hp E)
      as [(_ & Hr & _)|[(Hs & e' & Hr & Hf)|(u & w1 & _ & _ & R)]].
    + discriminate Hr.
    + injection Hr as <-. auto.
    + exfalso.
      destruct ep as [req|req|req|req|req|req|req]; try discriminate Hp.
      * discriminate R.
      * now apply asyncHandler_answers in R.
      * inversion R.
      * inversion R.
  - exfalso.
    destruct ep as [req|req|req|req|req|req|req]; try discriminate Hp;
      cbn [api] in E; now apply asyncHandler_answers in E.
Qed.

(** *** Outcomes with collaborators that do not fail *)

Lemma authenticates_store header w w' u :
  store w' = store w ->
  authenticates header w u -> authenticates header w' u.
Proof. intros Hs (c & Hc & Hu & Hok). exists c. now rewrite Hs. Qed.

Lemma authenticates_users header w w' u :
  users (store w') = users (store w) ->
  authenticates header w u -> authenticates header w' u.
Proof.
  intros Hs (c & Hc & Hu & Hok). exists c. unfold lookup in *.
  now rewrite Hs.
Qed.

(** The answer of an editing endpoint to a principal whose identity the
    header proves, when the body is valid and nothing fails. *)
Lemma edit_outcome (ep : endpoint) (w : world) (u : User.t) :
  edits ep = true ->
  reliable ->
  authenticates (header_of ep) w u ->
  valid ep ->
  exists w',
    api ep w
    = (Ok (match courses (store w) !! target_of ep with
           | None => not_found
           | Some c =>
               if Z.eqb (Course.userId c) (User.id u) then no_content
               else forbidden ep
           end), w')
    /\ store w'
       = match courses (store w) !! target_of ep with
         | None => store w
         | Some c =>
             if Z.eqb (Course.userId c) (User.id u)
             then with_courses (applied ep c (courses (store w))) (store w)
             else store w
         end.
Proof.
  intros Hed Hrel Hu Hv.
  destruct (api ep w) as [r w'] eqn:E.
  destruct (edit_endpoint_run ep w r w' Hed E)
    as [[Hs [[_ Hp]|(e & _ & Hp)]]|(u' & w1 & Hu' & Hs & R)].
  { destruct (authenticates_no_problem _ _ _ Hu Hp). }
  { destruct (reliable_no_fault _ _ _ Hrel Hp). }
  rewrite (authenticates_unique _ _ _ _ Hu Hu') in R. clear u' Hu'.
  apply (valid_errors_of ep Hed) in Hv.
  rewrite <- Hs.
  destruct R as [V|e V Hf|V Hf Hn|c V Hf Hc Ho|c e V Hf Hc Ho Hg
                |c V Hf Hc Ho Hg];
    try congruence;
    try (rewrite Hrel in Hf; discriminate);
    try (rewrite Hrel in Hg; discriminate);
    try rewrite Hn; try rewrite Hc; eexists; cbn [store with_store record].
  - split; reflexivity.
  - apply Z.eqb_neq in Ho. rewrite Ho. split; reflexivity.
  - apply Z.eqb_eq in Ho. rewrite Ho. split; reflexivity.
Qed.

Lemma get_course_outcome (req : request unit) (w : world) :
  faults (log w) (FindByPk (params_id req)) = None ->
  GET_course req w
  = (Ok (match courses (store w) !! params_id req with
         | Some c => res_json (document (store w) c) (res_status 200 res0)
         | None => not_located
         end), record (FindByPk (params_id req)) w).
Proof.
  intros Hf.
  unfold GET_course, asyncHandler, get_course_handler, try_catch, bind,
    Course_findByPk_with, call, ret.
  rewrite Hf. cbn [store record].
  destruct (courses (store w) !! params_id req); reflexivity.
Qed.

Lemma post_courses_admitted (req : request CourseBody) (w : world) (u : User.t) :
  reliable ->
  authenticates (authorization req) w u ->
  exists w1,
    store w1 = store w
    /\ POST_courses req w
       = asyncHandler post_courses_handler (set_currentUser u req) w1.
Proof.
  intros Hrel Hu.
  destruct (authenticates_admits req w u Hrel Hu) as (w1 & Ha & Hs).
  exists w1. split; [exact Hs|]. now apply chain_next.
Qed.

Lemma alter_found (m : gmap Z Course.t) (k : Z) (c c' : Course.t) :
  m !! k = Some c -> alter (fun _ => c') k m = <[k := c']> m.
Proof.
  intros Hc. apply map_eq. intros j.
  rewrite lookup_alter, lookup_insert.
  case_decide; [|reflexivity]. subst j. now rewrite Hc.
Qed.

(** *** Creating, reading, editing: how the routes compose *)

(** X8. Create, then read.  With collaborators that do not fail, a
    principal whose identity the header proves and a body with a title, a
    description that is not empty and a [userId]: [POST /api/courses]
    answers 201, names the next id in its [Location] header and stores the
    course [c] made of the fields of the body under that id; [GET
    /api/courses/:id] on that id then answers 200 with the document of
    [c]. *)
Theorem create_then_read (req : request CourseBody) (get : request unit)
    (w : world) (u : User.t) (owner : Z) :
  reliable ->
  authenticates (authorization req) w u ->
  acceptable_course (body req) ->
  b_userId (body req) = Some owner ->
  params_id get = next_course_id (store w) ->
  exists c w1 w2,
    POST_courses req w
    = (Ok (created ("/courses/" +:+ show (next_course_id (store w)))), w1)
    /\ store w1 = with_course c (store w)
    /\ Course.id c = next_course_id (store w)
    /\ Course.userId c = owner
    /\ b_title (body req) = Some (Course.title c)
    /\ b_description (body req) = Some (Course.description c)
    /\ Course.estimatedTime c = b_estimatedTime (body req)
    /\ Course.materialsNeeded c = b_materialsNeeded (body req)
    /\ GET_course get w1
       = (Ok (res_json (document (store w1) c) (res_status 200 res0)), w2).
Proof.
  intros Hrel Hu Hok Ho Hid.
  pose proof Hok as ((t & Ht) & (ds & Hd & _)).
  apply course_checks_post_nil in Hok.
  destruct (post_courses_admitted req w u Hrel Hu) as (w1 & Hs & ->).
  exists (Course.Build (next_course_id (store w)) t ds
            (b_estimatedTime (body req)) (b_materialsNeeded (body req)) owner).
  do 2 eexists. split.
  { unfold asyncHandler, post_courses_handler, try_catch, bind, Course_create,
      call, throw, ret.
    cbn [body set_currentUser]. rewrite Hok. cbn [isEmpty negb].
    rewrite Hrel, Ht, Hd, Ho. cbn [store record]. rewrite Hs. reflexivity. }
  split; [reflexivity|]. split; [reflexivity|]. split; [reflexivity|].
  split; [exact Ht|]. split; [exact Hd|].
  split; [reflexivity|]. split; [reflexivity|].
  rewrite get_course_outcome by apply Hrel.
  cbn [store with_store record with_course courses]. rewrite Hid.
  now rewrite lookup_insert_eq.
Qed.

(** X9. A course needs an owner: when the body is accepted by the
    validators but carries no [userId], [Course.create] refuses it, the
    answer is 500 with the validation error as its body, and no course is
    stored. *)
Theorem course_without_owner (req : request CourseBody) (w : world)
    (u : User.t) :
  reliable ->
  authenticates (authorization req) w u ->
  acceptable_course (body req) ->
  b_userId (body req) = None ->
  exists w',
    POST_courses req w = (Ok (server_error notNull), w')
    /\ store w' = store w.
Proof.
  intros Hrel Hu Hok Ho.
  pose proof Hok as ((t & Ht) & (ds & Hd & _)).
  apply course_checks_post_nil in Hok.
  destruct (post_courses_admitted req w u Hrel Hu) as (w1 & Hs & ->).
  eexists. split.
  { unfold asyncHandler, post_courses_handler, try_catch, bind, Course_create,
      call, throw, ret.
    cbn [body set_currentUser]. rewrite Hok. cbn [isEmpty negb].
    rewrite Hrel, Ht, Hd, Ho. reflexivity. }
  exact Hs.
Qed.

(** X10. Delete, then read or delete again.  Where every course sits under
    its own id and nothing fails, the owner's [DELETE /api/courses/:id] is
    answered 204 and removes that row; afterwards [GET /api/courses/:id]
    on the same id is answered 404, and so is a second [DELETE] by the same
    principal, which changes nothing. *)
Theorem delete_then_gone (req get : request unit) (w : world)
    (u : User.t) (c : Course.t) :
  reliable ->
  keyed (store w) ->
  authenticates (authorization req) w u ->
  courses (store w) !! params_id req = Some c ->
  Course.userId c = User.id u ->
  params_id get = params_id req ->
  exists w1 w2 w3,
    DELETE_course req w = (Ok no_content, w1)
    /\ store w1
       = with_courses (delete (params_id req) (courses (store w))) (store w)
    /\ GET_course get w1 = (Ok not_located, w2)
    /\ DELETE_course req w2 = (Ok not_found, w3)
    /\ store w3 = store w1.
Proof.
  intros Hrel Hk Hu Hc Ho Hid.
  destruct (edit_outcome (DeleteCourse req) w u eq_refl Hrel Hu I)
    as (w1 & E1 & Hs1).
  cbn [api target_of applied] in E1, Hs1. rewrite Hc in E1, Hs1.
  apply Z.eqb_eq in Ho. rewrite Ho in E1, Hs1.
  rewrite (Hk _ _ Hc) in Hs1.
  assert (Hgone : courses (store w1) !! params_id req = None).
  { rewrite Hs1. cbn. apply lookup_delete_eq. }
  exists w1, (record (FindByPk (params_id get)) w1).
  assert (Hu2 : authenticates (authorization req)
                  (record (FindByPk (params_id get)) w1) u).
  { apply (authenticates_users _ w); [|exact Hu].
    cbn [store record]. now rewrite Hs1. }
  destruct (edit_outcome (DeleteCourse req) _ u eq_refl Hrel Hu2 I)
    as (w3 & E3 & Hs3).
  cbn [api target_of store record] in E3, Hs3. rewrite Hgone in E3, Hs3.
  exists w3. split; [exact E1|]. split; [exact Hs1|].
  split; [|split; [exact E3|exact Hs3]].
  rewrite get_course_outcome by apply Hrel.
  now rewrite Hid, Hgone.
Qed.

(** X11. Update, then read.  Where every course sits under its own id and
    nothing fails, the owner's [PUT /api/courses/:id] with a body that the
    validators accept is answered 204 and replaces the row by the course
    merged with the body: the id stays, title and description are those of
    the body, and the fields that the body does not carry stay.  [GET
    /api/courses/:id] then answers 200 with the document of the merged
    course. *)
Theorem update_then_read (req : request CourseBody) (get : request unit)
    (w : world) (u : User.t) (c : Course.t) :
  reliable ->
  keyed (store w) ->
  authenticates (authorization req) w u ->
  acceptable_course (body req) ->
  courses (store w) !! params_id req = Some c ->
  Course.userId c = User.id u ->
  params_id get = params_id req ->
  exists c' w1 w2,
    PUT_course req w = (Ok no_content, w1)
    /\ store w1
       = with_courses (<[params_id req := c']> (courses (store w))) (store w)
    /\ Course.id c' = params_id req
    /\ b_title (body req) = Some (Course.title c')
    /\ b_description (body req) = Some (Course.description c')
    /\ (b_estimatedTime (body req) = None ->
        Course.estimatedTime c' = Course.estimatedTime c)
    /\ (b_materialsNeeded (body req) = None ->
        Course.materialsNeeded c' = Course.materialsNeeded c)
    /\ (b_userId (body req) = None -> Course.userId c' = Course.userId c)
    /\ GET_course get w1
       = (Ok (res_json (document (store w1) c') (res_status 200 res0)), w2).
Proof.
  intros Hrel Hk Hu Hok Hc Ho Hid.
  pose proof Hok as ((t & Ht) & (ds & Hd & _)).
  apply course_checks_put_nil in Hok.
  destruct (edit_outcome (PutCourse req) w u eq_refl Hrel Hu Hok)
    as (w1 & E1 & Hs1).
  cbn [api target_of applied] in E1, Hs1. rewrite Hc in E1, Hs1.
  apply Z.eqb_eq in Ho. rewrite Ho in E1, Hs1.
  rewrite (Hk _ _ Hc), (alter_found _ _ c _ Hc) in Hs1.
  exists (merge c (body req)), w1. eexists.
  split; [exact E1|]. split; [exact Hs1|].
  split; [cbn; now apply Hk|].
  split; [cbn; now rewrite Ht|]. split; [cbn; now rewrite Hd|].
  split; [cbn; now intros ->|]. split; [cbn; now intros ->|].
  split; [cbn; now intros ->|].
  rewrite get_course_outcome by apply Hrel.
  rewrite Hid, Hs1. cbn [courses with_courses].
  now rewrite lookup_insert_eq.
Qed.

(** X12. A course given away is out of reach.  Where every course sits
    under its own id and no collaborator call fails, after the owner's
    [PUT] with a body that the validators accept and whose [userId] is
    another one than the owner's id (answered 204), the next request of
    the same principal on that course, a [DELETE] or a [PUT] with a body
    that the validators accept, is answered 403 and changes nothing. *)
Theorem given_away_is_out_of_reach (req : request CourseBody)
    (again : endpoint) (w : world) (u : User.t) (c : Course.t) (o : Z) :
  reliable ->
  keyed (store w) ->
  authenticates (authorization req) w u ->
  acceptable_course (body req) ->
  courses (store w) !! params_id req = Some c ->
  Course.userId c = User.id u ->
  b_userId (body req) = Some o ->
  o <> User.id u ->
  edits again = true ->
  header_of again = authorization req ->
  target_of again = params_id req ->
  valid again ->
  exists w1 w2,
    PUT_course req w = (Ok no_content, w1)
    /\ api again w1 = (Ok (forbidden again), w2)
    /\ store w2 = store w1.
Proof.
  intros Hrel Hk Hu Hok Hc Ho Hb Hne Hed Hh Ht Hv.
  apply course_checks_put_nil in Hok.
  destruct (edit_outcome (PutCourse req) w u eq_refl Hrel Hu Hok)
    as (w1 & E1 & Hs1).
  cbn [api target_of applied] in E1, Hs1. rewrite Hc in E1, Hs1.
  apply Z.eqb_eq in Ho. rewrite Ho in E1, Hs1.
  rewrite (Hk _ _ Hc), (alter_found _ _ c _ Hc) in Hs1.
  assert (Hu1 : authenticates (header_of again) w1 u).
  { rewrite Hh. apply (authenticates_users _ w); [|exact Hu].
    now rewrite Hs1. }
  destruct (edit_outcome again w1 u Hed Hrel Hu1 Hv) as (w2 & E2 & Hs2).
  rewrite Ht, Hs1 in E2, Hs2. cbn [courses with_courses] in E2, Hs2.
  rewrite lookup_insert_eq in E2, Hs2.
  cbn [merge Course.userId] in E2, Hs2. rewrite Hb in E2, Hs2.
  change (default (Course.userId c) (Some o)) with o in E2, Hs2.
  apply Z.eqb_neq in Hne. rewrite Hne in E2, Hs2.
  exists w1, w2. split; [exact E1|]. split; [exact E2|].
  now rewrite Hs2, Hs1.
Qed.

(** X13. The validators of a course.  For a principal whose identity the
    header proves and collaborators that do not fail, [POST /api/courses]
    and [PUT /api/courses/:id] answer 400 exactly when the body has no
    title, or has no description or an empty one (an empty title is
    accepted).  The 400 carries the messages of the validators, and the
    tables are as they were. *)
Theorem course_validation (ep : endpoint) (b : CourseBody) (w : world)
    (u : User.t) :
  course_body ep = Some b ->
  reliable ->
  authenticates (header_of ep) w u ->
  exists res w',
    api ep w = (Ok res, w')
    /\ (statusCode res = 400 <-> ~ acceptable_course b)
    /\ (~ acceptable_course b ->
          exists errors,
            errors <> [] /\ res = bad_request errors /\ store w' = store w).
Proof.
  intros Hb Hrel Hu.
  destruct ep as [req|req|req|req|req|req|req]; try discriminate Hb;
    injection Hb as <-; cbn [api header_of] in *.
  - (* POST *)
    destruct (post_courses_admitted req w u Hrel Hu) as (w1 & Hs & ->).
    unfold asyncHandler, post_courses_handler, try_catch, bind, Course_create,
      call, throw, ret.
    cbn [body set_currentUser].
    pose proof (course_checks_post_nil (body req)) as Hnil.
    destruct (course_checks_post (body req)) as [|m ms] eqn:V;
      cbn [isEmpty negb].
    + assert (Hok : acceptable_course (body req)) by now apply Hnil.
      rewrite Hrel.
      destruct (b_title (body req)), (b_description (body req)),
        (b_userId (body req)); do 2 eexists;
        (split; [reflexivity|]); cbn; (split; [split|]);
        intros; (lia || contradiction).
    + assert (Hno : ~ acceptable_course (body req)).
      { intros Hok. apply Hnil in Hok. discriminate Hok. }
      do 2 eexists. split; [reflexivity|]. cbn. split; [tauto|].
      intros _. exists (m :: ms). split; [discriminate|]. now split.
  - (* PUT *)
    pose proof (course_checks_put_nil (body req)) as Hnil.
    destruct (course_checks_put (body req)) as [|m ms] eqn:V.
    + assert (Hok : acceptable_course (body req)) by now apply Hnil.
      destruct (edit_outcome (PutCourse req) w u eq_refl Hrel Hu V)
        as (w' & E & _).
      cbn [api] in E. do 2 eexists. split; [exact E|].
      split; [|intros; contradiction].
      destruct (courses (store w) !! target_of (PutCourse req)) as [c|];
        [destruct (Z.eqb _ _)|]; cbn; split; intros; (lia || contradiction).
    + assert (Hno : ~ acceptable_course (body req)).
      { intros Hok. apply Hnil in Hok. discriminate Hok. }
      destruct (authenticates_admits req w u Hrel Hu) as (w1 & Ha & Hs).
      unfold PUT_course. rewrite (chain_next _ _ _ _ _ Ha).
      unfold asyncHandler, put_course_handler, try_catch, bind, ret.
      cbn [body set_currentUser]. rewrite V. cbn [isEmpty negb].
      do 2 eexists. split; [reflexivity|]. cbn. split; [tauto|].
      intros _. exists (m :: ms). split; [discriminate|]. now split.
Qed.

(** X14. The list of courses is complete and exact: when [Course.findAll]
    does not fail, [GET /api/courses] answers 200, whatever the header,
    with an array that has one document per row of the course table (none
    for an empty table), and nothing else; the tables are as they were. *)
Theorem list_courses (req : request unit) (w : world) :
  faults (log w) FindAll = None ->
  exists docs w',
    GET_courses req w = (Ok (res_json (JArr docs) (res_status 200 res0)), w')
    /\ store w' = store w
    /\ length docs = size (courses (store w))
    /\ (forall doc,
          In doc docs
          <-> exists k c, courses (store w) !! k = Some c
                          /\ doc = document (store w) c)
    /\ (courses (store w) = ∅ -> docs = []).
Proof.
  intros Hf.
  unfold GET_courses, asyncHandler, get_courses_handler, try_catch, bind,
    Course_findAll, call, ret.
  rewrite Hf. cbn [store record].
  do 2 eexists. split; [reflexivity|]. split; [reflexivity|].
  split; [|split].
  - now rewrite length_map, length_map_to_list.
  - intros doc. rewrite in_map_iff. split.
    + intros ([k c] & <- & Hin).
      apply list_elem_of_In, elem_of_map_to_list in Hin. eauto.
    + intros (k & c & Hc & ->). exists (k, c). split; [reflexivity|].
      now apply list_elem_of_In, elem_of_map_to_list.
  - intros ->. now rewrite map_to_list_empty.
Qed.

(** *** The answers of each route *)

Ltac answer :=
  cbn;
  repeat match goal with
         | |- _ /\ _ => split
         | |- _ <-> _ => split
         end;
  intros; try lia; try congruence; eauto.

(** X15. Each route answers only the statuses of its own list (so [GET
    /api/users] never answers 500, and [DELETE] never 400).  A [Location]
    header is set exactly on a 201; a 201 and a 204 have no content; a 500
    carries the error that was caught; every 4xx carries a JSON body. *)
Theorem answers_of_each_route (ep : endpoint) (w : world)
    (res : response) (w' : world) :
  api ep w = (Ok res, w') ->
  In (statusCode res) (statuses ep)
  /\ (locationHeader res <> None <-> statusCode res = 201)
  /\ (statusCode res = 201 \/ statusCode res = 204 -> content res = Ended)
  /\ (statusCode res = 500 -> exists e, content res = Sent e)
  /\ (400 <= statusCode res < 500 -> exists j, content res = Json j).
Proof.
  intros E.
  destruct (protected ep) eqn:Hp.
  - destruct (protected_cases ep w _ w' Hp E)
      as [(_ & Hr & _)|[(_ & e & Hr & _)|(u & w1 & _ & _ & R)]];
      try discriminate Hr.
    + injection Hr as ->.
      destruct ep; try discriminate Hp; answer.
    + destruct ep as [req|req|req|req|req|req|req]; try discriminate Hp.
      * injection R as ->. answer.
      * unfold asyncHandler, post_courses_handler, try_catch, bind,
          Course_create, call, throw, ret in R.
        repeat (case_match; simplify_eq); answer.
      * inversion R; subst; answer.
      * inversion R as [V| | | | |]; subst; [exfalso; now apply V| | | | |];
          answer.
  - destruct ep as [req|req|req|req|req|req|req]; try discriminate Hp;
      cbn [api] in E.
    + unfold POST_users, asyncHandler, post_users_handler, try_catch, bind,
        bcryptjs_hashSync, User_create, call, throw, ret in E.
      repeat (case_match; simplify_eq); answer.
    + unfold GET_courses, asyncHandler, get_courses_handler, try_catch, bind,
        Course_findAll, call, ret in E.
      repeat (case_match; simplify_eq); answer.
    + unfold GET_course, asyncHandler, get_course_handler, try_catch, bind,
        Course_findByPk_with, call, ret in E.
      repeat (case_match; simplify_eq); answer.
Qed.

(** X16. The sign-up itself never looks whether the e-mail address is
    taken: with collaborators that do not fail (no constraint of the
    database among them), an acceptable body is answered 201 and its row is
    added even when a row [old] of the user table has the same e-mail
    address; the lookup of that address still returns [old]. *)
Theorem sign_up_leaves_uniqueness_to_the_database (req : request UserBody)
    (w : world) (e : string) (old : User.t) :
  reliable ->
  acceptable (body req) ->
  b_emailAddress (body req) = Some e ->
  lookup e (store w) = Some old ->
  exists u w1,
    POST_users req w = (Ok (created "/"), w1)
    /\ users (store w1) = (users (store w) ++ [u])%list
    /\ User.emailAddress u = User.emailAddress old
    /\ User.id u = next_user_id (store w)
    /\ lookup e (store w1) = Some old.
Proof.
  intros Hrel Hok He Hold.
  pose proof Hok as ((f & Hf & _) & (l & Hl & _) & _ & (p & Hp & _) & _).
  apply user_checks_nil in Hok.
  exists (User.Build (next_user_id (store w)) f l e (hashSync (seed w) p)).
  eexists. split.
  { unfold POST_users, asyncHandler, post_users_handler, try_catch, bind,
      bcryptjs_hashSync, User_create, call, throw, ret.
    rewrite Hok, Hp. cbn [isEmpty negb]. rewrite !Hrel.
    cbn [b_firstName b_lastName b_emailAddress b_password set_password].
    rewrite Hf, Hl, He. reflexivity. }
  split; [reflexivity|]. split.
  { cbn. unfold lookup in Hold. apply List.find_some in Hold as [_ Heq].
    apply String.eqb_eq in Heq. now rewrite Heq. }
  split; [reflexivity|].
  cbn [store with_store with_seed record users].
  unfold lookup in *. cbn [users].
  clear - Hold. induction (users (store w)) as [|u' us IH]; cbn in *.
  - discriminate.
  - destruct (String.eqb (User.emailAddress u') e); [exact Hold|].
    now apply IH.
Qed.

End Further.

(* ===================================================================== *)
(** ** Concrete runs *)
(* ===================================================================== *)

Module Runs.
Import Demo.
Local Open Scope string_scope.

Lemma steady_reliable : reliable (env := steady).
Proof. intros l o. reflexivity. Defined.

Lemma alice_authenticates : authenticates (env := steady) as_alice w0 alice.
Proof.
  exists (Credentials "alice@example.com" "correct-secret").
  repeat split; reflexivity.
Defined.

Lemma bob_authenticates : authenticates (env := steady) as_bob w0 bob.
Proof.
  exists (Credentials "bob@example.com" "hammer").
  repeat split; reflexivity.
Defined.

(** The three end-to-end cases of the design: Alice with her secret is
    served her own profile; with another secret she gets the 401; her
    [DELETE] of Bob's course gets the 403 and deletes nothing. *)
Example alice_is_served :
  fst (GET_users (env := steady) alice_reads w0)
  = Ok {| statusCode := 200; locationHeader := None;
          content := Json (profile alice) |}.
Proof. vm_compute. reflexivity. Qed.

Example alice_with_wrong_secret :
  fst (GET_users (env := steady) alice_wrong w0) = Ok unauthorized.
Proof. vm_compute. reflexivity. Qed.

(** A header of another scheme, and the header of somebody unknown. *)
Example garbled_header :
  fst (GET_users (env := steady) garbler w0) = Ok unauthorized
  /\ log (snd (GET_users (env := steady) garbler w0))
     = [ConsoleWarn "AUTH Header not found."].
Proof. split; vm_compute; reflexivity. Qed.

Example carol_is_unknown :
  fst (GET_users (env := steady) carol_reads w0) = Ok unauthorized
  /\ log (snd (GET_users (env := steady) carol_reads w0))
     = [FindOne "carol@example.com";
        ConsoleWarn "User carol@example.com is not found..."].
Proof. split; vm_compute; reflexivity. Qed.

Example alice_cannot_delete_botany :
  fst (DELETE_course (env := steady) alice_deletes_botany w0)
  = Ok (forbidden (DeleteCourse alice_deletes_botany))
  /\ store (snd (DELETE_course (env := steady) alice_deletes_botany w0))
     = store w0.
Proof. split; vm_compute; reflexivity. Qed.

(** C1 at a wrong secret: Alice's header with another secret is refused
    with [unauthorized], and the reason is only logged. *)
Lemma rejection_is_uniform_witness :
  fails (env := steady) WrongSecret alice_wrong w0
  /\ exists reason w1,
       authenticateUser (env := steady) alice_wrong w0
       = (Ok (Reply unauthorized), record (ConsoleWarn reason) w1)
       /\ ~ occurs reason generic_message.
Proof.
  assert (F : fails (env := steady) WrongSecret alice_wrong w0).
  { exists (Credentials "alice@example.com" "wrong-secret"), alice.
    repeat split; reflexivity. }
  split; [exact F|].
  destruct (rejection_is_uniform (env := steady) WrongSecret alice_wrong w0 F)
    as (reason & w1 & E & _ & _ & N & _).
  exists reason, w1. split; assumption.
Defined.



(** C5 at a request without header. *)
Lemma no_lookup_without_credentials_witness :
  authorization stranger = None
  /\ exists w1,
       authenticateUser (env := steady) stranger w0
       = (Ok (Reply unauthorized), w1)
       /\ log w1 = [ConsoleWarn "AUTH Header not found."].
Proof.
  split; [reflexivity|].
  destruct (no_lookup_without_credentials (env := steady) stranger w0)
    as (w1 & calls & E & L & C & _).
  - left. reflexivity.
  - exists w1. split; [exact E|]. now rewrite L, C.
Defined.

(** C2, the claim as stated: Alice, whose id is 7, creates a course that
    belongs to Bob, whose id is 9, and gives her own course to him. *)
Lemma principal_writes_foreign_owner :
  authenticates (env := steady) as_alice w0 alice
  /\ User.id alice = 7
  /\ fst (api (env := steady) (PostCourses alice_posts_for_bob) w0)
     = Ok {| statusCode := 201; locationHeader := Some "/courses/3";
             content := Ended |}
  /\ courses (store w0) !! 3 = None
  /\ Course.userId
       <$> courses (store (snd (api (env := steady)
                                  (PostCourses alice_posts_for_bob) w0))) !! 3
     = Some 9
  /\ fst (api (env := steady) (PutCourse alice_gives_away) w0) = Ok no_content
  /\ Course.userId <$> courses (store w0) !! 1 = Some 7
  /\ Course.userId
       <$> courses (store (snd (api (env := steady)
                                  (PutCourse alice_gives_away) w0))) !! 1
     = Some 9.
Proof.
  split; [exact alice_authenticates|].
  repeat split; vm_compute; reflexivity.
Defined.

(** C2 as amended, at Alice deleting her course. *)
Lemma course_changes_witness :
  exists u c,
    authenticates (env := steady) as_alice w0 u
    /\ courses (store w0) !! 1 = Some c
    /\ Course.userId c = User.id u.
Proof.
  destruct (course_changes (env := steady) (DeleteCourse alice_deletes) w0
              (fst (api (env := steady) (DeleteCourse alice_deletes) w0))
              (snd (api (env := steady) (DeleteCourse alice_deletes) w0)))
    as (u & Hu & [(_ & c & Hc & Ho & _)|(Hcr & _)]).
  - now destruct (api (DeleteCourse alice_deletes) w0).
  - intros E. apply (f_equal (fun m => m !! 1)) in E.
    vm_compute in E. discriminate E.
  - exists u, c. auto.
  - discriminate Hcr.
Defined.

(** C3, the claim as stated: Alice owns course 1, and her [PUT] with a body
    without description is answered 400 and changes nothing. *)
Lemma owner_with_refused_body :
  authenticates (env := steady) as_alice w0 alice
  /\ courses (store w0) !! 1 = Some algebra
  /\ Course.userId algebra = User.id alice
  /\ statusCode
       <$> (match fst (api (env := steady) (PutCourse alice_puts_untitled) w0)
            with Ok res => Some res | Throw _ => None end)
     = Some 400
  /\ store (snd (api (env := steady) (PutCourse alice_puts_untitled) w0))
     = store w0.
Proof.
  split; [exact alice_authenticates|].
  repeat split; vm_compute; reflexivity.
Defined.

(** C3 as amended, at Alice renaming her course and at Bob deleting it. *)
Lemma ownership_decision_witness :
  (exists w',
     api (env := steady) (PutCourse alice_renames) w0 = (Ok no_content, w')
     /\ Course.title <$> courses (store w') !! 1 = Some "Linear algebra")
  /\ (exists w',
        api (env := steady) (DeleteCourse bob_deletes) w0
        = (Ok (forbidden (DeleteCourse bob_deletes)), w')
        /\ store w' = store w0).
Proof.
  split.
  - destruct (ownership_decision (env := steady) (PutCourse alice_renames)
                w0 alice algebra)
      as (res & w' & E & Hyes & _).
    + reflexivity.
    + exact steady_reliable.
    + exact alice_authenticates.
    + reflexivity.
    + reflexivity.
    + destruct (Hyes eq_refl) as (-> & Hs & _).
      exists w'. split; [exact E|]. rewrite Hs. reflexivity.
  - destruct (ownership_decision (env := steady) (DeleteCourse bob_deletes)
                w0 bob algebra)
      as (res & w' & E & _ & Hno & _).
    + reflexivity.
    + exact steady_reliable.
    + exact bob_authenticates.
    + exact I.
    + reflexivity.
    + destruct Hno as (-> & Hs); [cbn; lia|].
      exists w'. split; assumption.
Defined.

(** C10, the claim as stated: no course has the id 99, and Alice's [PUT]
    on it with a body without description is answered 400, not 404. *)
Lemma missing_course_with_refused_body :
  authenticates (env := steady) as_alice w0 alice
  /\ courses (store w0) !! 99 = None
  /\ fst (api (env := steady) (PutCourse alice_puts_untitled_99) w0)
     = Ok (bad_request [dq +:+ "description" +:+ dq +:+ " needs a value!"])
  /\ statusCode (bad_request [dq +:+ "description" +:+ dq +:+ " needs a value!"])
     = 400.
Proof.
  split; [exact alice_authenticates|].
  repeat split; vm_compute; reflexivity.
Defined.

(** C10 as amended, at Alice deleting the course 99. *)
Lemma missing_course_witness :
  store (snd (api (env := steady) (DeleteCourse alice_deletes_99) w0))
  = store w0
  /\ fst (api (env := steady) (DeleteCourse alice_deletes_99) w0)
     = Ok not_found.
Proof.
  destruct (missing_course (env := steady) (DeleteCourse alice_deletes_99)
              w0 alice
              (fst (api (env := steady) (DeleteCourse alice_deletes_99) w0))
              (snd (api (env := steady) (DeleteCourse alice_deletes_99) w0)))
    as (Hs & H404 & _).
  - reflexivity.
  - exact alice_authenticates.
  - reflexivity.
  - now destruct (api (DeleteCourse alice_deletes_99) w0).
  - split; [exact Hs|].
    destruct (H404 steady_reliable I) as [E _]. exact E.
Defined.

(** C6 with the user table out of reach: Alice's [DELETE] ends in the
    exception, and nothing is deleted. *)
Lemma faults_are_not_refusals_witness :
  gate_fault (env := outage) as_alice w0 unavailable
  /\ fst (api (env := outage) (DeleteCourse alice_deletes) w0)
     = Throw unavailable
  /\ store (snd (api (env := outage) (DeleteCourse alice_deletes) w0))
     = store w0.
Proof.
  assert (F : gate_fault (env := outage) as_alice w0 unavailable).
  { exists (Credentials "alice@example.com" "correct-secret").
    split; [reflexivity|]. left. reflexivity. }
  split; [exact F|].
  destruct (faults_are_not_refusals (env := outage)
              (DeleteCourse alice_deletes) w0
              (fst (api (env := outage) (DeleteCourse alice_deletes) w0))
              (snd (api (env := outage) (DeleteCourse alice_deletes) w0)))
    as (Hthrow & _).
  - now destruct (api (env := outage) (DeleteCourse alice_deletes) w0).
  - exact (Hthrow unavailable eq_refl F).
Defined.

(** C8 at Carol signing up with the password [higher]. *)
Lemma created_user_is_hashed_witness :
  exists u,
    users (store (snd (POST_users (env := steady) carol_signs_up w0)))
    = [alice; bob; u]
    /\ User.password u = salted 0 "higher"
    /\ User.password u <> "higher".
Proof.
  destruct (created_user_is_hashed (env := steady) carol_signs_up w0
              (res_end (res_status 201 (res_location "/" res0)))
              (snd (POST_users (env := steady) carol_signs_up w0)))
    as (p & u & Hp & Hu & Hh & _).
  - vm_compute. reflexivity.
  - reflexivity.
  - injection Hp as <-. exists u. split; [exact Hu|].
    split; [exact Hh|]. rewrite Hh. vm_compute. discriminate.
Defined.

(** C9 at the list of courses, with every stored password erased. *)
Lemma reads_hide_password_witness :
  exposes "password"
    (res_json (JArr (map (fun kc => projected course_attributes owner_attributes
                                      tables (snd kc))
                         (map_to_list (courses tables))))
              (res_status 200 res0)) = false
  /\ fst (api (env := steady) (GetCourses stranger)
            (with_store (repassword (fun _ => EmptyString) tables) w0))
     = fst (api (env := steady) (GetCourses stranger) w0).
Proof.
  destruct (reads_hide_password (env := steady) (GetCourses stranger)
              (fun _ => EmptyString) w0
              (res_json (JArr (map (fun kc => projected course_attributes
                                                owner_attributes tables (snd kc))
                                   (map_to_list (courses tables))))
                        (res_status 200 res0))
              (snd (api (env := steady) (GetCourses stranger) w0)))
    as (Hx & Hsame & _).
  - reflexivity.
  - reflexivity.
  - reflexivity.
  - split; [exact Hx|].
    destruct (api (env := steady) (GetCourses stranger)
                (with_store (repassword (fun _ => EmptyString) tables) w0))
      as [[res2|e] w2] eqn:E2.
    + rewrite (Hsame res2 w2 E2).
      * reflexivity.
      * vm_compute in E2. injection E2 as <- _. reflexivity.
    + vm_compute in E2. discriminate E2.
Defined.

(** *** Runs for the further properties *)

Lemma tables_keyed : keyed tables.
Proof.
  intros k c. unfold tables. cbn [courses].
  rewrite lookup_insert. case_decide as H2; [intros [= <-]; now subst|].
  rewrite lookup_insert. case_decide as H1; [intros [= <-]; now subst|].
  rewrite lookup_empty. discriminate.
Defined.

Lemma tables_well_formed : well_formed tables.
Proof.
  split; [exact tables_keyed|]. split; [split|].
  - intros k c. unfold tables. cbn [courses next_course_id].
    rewrite lookup_insert. case_decide as H2; [intros _; lia|].
    rewrite lookup_insert. case_decide as H1; [intros _; lia|].
    rewrite lookup_empty. discriminate.
  - intros u [<-|[<-|[]]]; cbn; lia.
  - unfold unique_ids. cbn. repeat constructor; cbn; intros H;
      repeat (apply elem_of_cons in H as [H|H]; [discriminate H|]);
      now apply elem_of_nil in H.
Defined.

(** The tables of the demo stay well formed when Alice creates a course. *)
Example demo_stays_well_formed :
  well_formed
    (store (snd (api (env := steady) (PostCourses alice_posts_for_bob) w0))).
Proof.
  apply (well_formed_preserved (env := steady)
           (PostCourses alice_posts_for_bob) w0
           (fst (api (env := steady) (PostCourses alice_posts_for_bob) w0))).
  - exact tables_well_formed.
  - now destruct (api (PostCourses alice_posts_for_bob) w0).
Qed.

Lemma carol_acceptable : acceptable (env := steady) carol.
Proof.
  repeat split; try (eexists; split; [reflexivity|discriminate]).
Defined.

Lemma renamed_acceptable : acceptable_course renamed.
Proof.
  split; [eexists; reflexivity|]. eexists. split; [reflexivity|discriminate].
Defined.

Lemma geometry_acceptable : acceptable_course geometry.
Proof.
  split; [eexists; reflexivity|]. eexists. split; [reflexivity|discriminate].
Defined.

(** X1 at Alice deleting her course: the tables change, the answer is 204. *)
Lemma failures_change_nothing_witness :
  exists res,
    fst (api (env := steady) (DeleteCourse alice_deletes) w0) = Ok res
    /\ (statusCode res = 201 \/ statusCode res = 204).
Proof.
  destruct (failures_change_nothing (env := steady) (DeleteCourse alice_deletes)
              w0
              (fst (api (env := steady) (DeleteCourse alice_deletes) w0))
              (snd (api (env := steady) (DeleteCourse alice_deletes) w0)))
    as (res & Hr & Hs & _).
  - now destruct (api (DeleteCourse alice_deletes) w0).
  - intros E. apply (f_equal (fun d => courses d !! 1)) in E.
    vm_compute in E. discriminate E.
  - exists res. split; assumption.
Defined.

(** X2 at Alice reading her profile. *)
Lemma admission_is_sound_witness :
  exists u, In u (users (store w0))
            /\ User.emailAddress u = "alice@example.com".
Proof.
  destruct (admission_is_sound (env := steady) (GetUsers alice_reads) w0
              (res_status 200 (res_json (profile alice) res0))
              (snd (api (env := steady) (GetUsers alice_reads) w0)))
    as (h & i & s & u & Hh & Hp & Hin & He & _).
  - reflexivity.
  - reflexivity.
  - cbn. lia.
  - exists u. split; [exact Hin|].
    injection Hh as <-. injection Hp as <- _. exact He.
Defined.

(** X3 at Alice renaming her course: the course of Bob is as it was. *)
Lemma edit_touches_only_target_witness :
  courses (store (snd (api (env := steady) (PutCourse alice_renames) w0))) !! 2
  = Some botany.
Proof.
  destruct (edit_touches_only_target (env := steady) (PutCourse alice_renames)
              w0
              (fst (api (env := steady) (PutCourse alice_renames) w0))
              (snd (api (env := steady) (PutCourse alice_renames) w0)))
    as (_ & _ & _ & Hk).
  - reflexivity.
  - exact tables_keyed.
  - now destruct (api (PutCourse alice_renames) w0).
  - rewrite Hk; [reflexivity|]. cbn. lia.
Defined.

(** X4 at a body without first name. *)
Lemma sign_up_validation_witness :
  POST_users (env := steady) nameless_signs_up w0
  = (Ok (bad_request [dq +:+ "firstName" +:+ dq +:+ " needs a value!"]), w0).
Proof.
  destruct (sign_up_validation (env := steady) nameless_signs_up w0
              (fst (POST_users (env := steady) nameless_signs_up w0))
              (snd (POST_users (env := steady) nameless_signs_up w0)))
    as (Hno & _).
  - now destruct (POST_users nameless_signs_up w0).
  - destruct Hno as (Hr & _ & Hw).
    + intros ((s & Hs & _) & _). discriminate Hs.
    + destruct (POST_users nameless_signs_up w0) as [r w']. cbn in Hr, Hw.
      now rewrite Hr, Hw.
Defined.

(** X5 at Carol signing up to the database that refuses her. *)
Lemma sign_up_failure_witness :
  exists w',
    POST_users (env := constrained) carol_signs_up w0 = (Ok taken, w')
    /\ store w' = store w0.
Proof.
  destruct (sign_up_failure (env := constrained) carol_signs_up w0
              "higher" conflict)
    as (w' & E & Hs).
  - repeat split; try (eexists; split; [reflexivity|discriminate]).
  - reflexivity.
  - right. split; reflexivity.
  - exists w'. split; assumption.
Defined.

(** X6 at Carol signing up and coming back. *)
Lemma sign_up_then_sign_in_witness :
  exists u w1 w2,
    POST_users (env := steady) carol_signs_up w0 = (Ok (created "/"), w1)
    /\ User.id u = 10
    /\ authenticateUser (env := steady) carol_returns w1
       = (Ok (Next (set_currentUser u carol_returns)), w2).
Proof.
  destruct (sign_up_then_sign_in (env := steady) carol_signs_up carol_returns
              w0 "Basic carol@example.com:higher" "carol@example.com" "higher")
    as (u & w1 & w2 & E & _ & Hid & _ & _ & _ & _ & G).
  - exact steady_reliable.
  - exact carol_acceptable.
  - reflexivity.
  - reflexivity.
  - reflexivity.
  - reflexivity.
  - reflexivity.
  - reflexivity.
  - exists u, w1, w2. repeat split; assumption.
Defined.

(** X7 with the user table out of reach. *)
Lemma uncaught_only_from_gate_witness :
  gate_fault (env := outage) as_alice w0 unavailable.
Proof.
  destruct (uncaught_only_from_gate (env := outage) (DeleteCourse alice_deletes)
              w0 unavailable
              (snd (api (env := outage) (DeleteCourse alice_deletes) w0)))
    as (_ & F & _).
  - reflexivity.
  - exact F.
Defined.

(** X8 at Alice creating a course, then anybody reading the course 3. *)
Lemma create_then_read_witness :
  exists c w1 w2,
    POST_courses (env := steady) alice_posts_for_bob w0
    = (Ok (created "/courses/3"), w1)
    /\ Course.title c = "Geometry"
    /\ GET_course (env := steady) reads_3 w1
       = (Ok (res_json (document (store w1) c) (res_status 200 res0)), w2).
Proof.
  destruct (create_then_read (env := steady) alice_posts_for_bob reads_3 w0
              alice 9)
    as (c & w1 & w2 & E & _ & _ & _ & Ht & _ & _ & _ & G).
  - exact steady_reliable.
  - exact alice_authenticates.
  - exact geometry_acceptable.
  - reflexivity.
  - reflexivity.
  - exists c, w1, w2. split; [exact E|]. split; [|exact G].
    cbn in Ht. now injection Ht as <-.
Defined.

(** X9 at Alice creating a course without [userId]. *)
Lemma course_without_owner_witness :
  exists w',
    POST_courses (env := steady) alice_posts_ownerless w0
    = (Ok (server_error notNull), w')
    /\ store w' = store w0.
Proof.
  apply (course_without_owner (env := steady) alice_posts_ownerless w0 alice).
  - exact steady_reliable.
  - exact alice_authenticates.
  - exact renamed_acceptable.
  - reflexivity.
Defined.

(** X10 at Alice deleting her course. *)
Lemma delete_then_gone_witness :
  exists w1 w2 w3,
    DELETE_course (env := steady) alice_deletes w0 = (Ok no_content, w1)
    /\ GET_course (env := steady) reads_1 w1 = (Ok not_located, w2)
    /\ DELETE_course (env := steady) alice_deletes w2 = (Ok not_found, w3).
Proof.
  destruct (delete_then_gone (env := steady) alice_deletes reads_1 w0
              alice algebra)
    as (w1 & w2 & w3 & E1 & _ & E2 & E3 & _).
  - exact steady_reliable.
  - exact tables_keyed.
  - exact alice_authenticates.
  - reflexivity.
  - reflexivity.
  - reflexivity.
  - exists w1, w2, w3. repeat split; assumption.
Defined.

(** X11 at Alice renaming her course. *)
Lemma update_then_read_witness :
  exists c' w1 w2,
    PUT_course (env := steady) alice_renames w0 = (Ok no_content, w1)
    /\ Course.title c' = "Linear algebra"
    /\ Course.userId c' = 7
    /\ GET_course (env := steady) reads_1 w1
       = (Ok (res_json (document (store w1) c') (res_status 200 res0)), w2).
Proof.
  destruct (update_then_read (env := steady) alice_renames reads_1 w0
              alice algebra)
    as (c' & w1 & w2 & E & _ & _ & Ht & _ & _ & _ & Ho & G).
  - exact steady_reliable.
  - exact tables_keyed.
  - exact alice_authenticates.
  - exact renamed_acceptable.
  - reflexivity.
  - reflexivity.
  - reflexivity.
  - exists c', w1, w2. split; [exact E|]. split; [|split; [|exact G]].
    + cbn in Ht. now injection Ht as <-.
    + now rewrite (Ho eq_refl).
Defined.

(** X12 at Alice giving her course to Bob, then trying to delete it. *)
Lemma given_away_is_out_of_reach_witness :
  exists w1 w2,
    PUT_course (env := steady) alice_gives_away w0 = (Ok no_content, w1)
    /\ api (env := steady) (DeleteCourse alice_deletes) w1
       = (Ok (forbidden (DeleteCourse alice_deletes)), w2).
Proof.
  destruct (given_away_is_out_of_reach (env := steady) alice_gives_away
              (DeleteCourse alice_deletes) w0 alice algebra 9)
    as (w1 & w2 & E1 & E2 & _).
  - exact steady_reliable.
  - exact tables_keyed.
  - exact alice_authenticates.
  - exact geometry_acceptable.
  - reflexivity.
  - reflexivity.
  - reflexivity.
  - cbn. lia.
  - reflexivity.
  - reflexivity.
  - reflexivity.
  - exact I.
  - exists w1, w2. split; assumption.
Defined.

(** X13 at Alice's [PUT] without description. *)
Lemma course_validation_witness :
  exists res w',
    api (env := steady) (PutCourse alice_puts_untitled) w0 = (Ok res, w')
    /\ statusCode res = 400.
Proof.
  destruct (course_validation (env := steady) (PutCourse alice_puts_untitled)
              untitled w0 alice)
    as (res & w' & E & H400 & _).
  - reflexivity.
  - exact steady_reliable.
  - exact alice_authenticates.
  - exists res, w'. split; [exact E|]. apply H400.
    intros (_ & s & Hs & _). discriminate Hs.
Defined.

(** X14 at the two courses of the demo. *)
Lemma list_courses_witness :
  exists docs w',
    GET_courses (env := steady) stranger w0
    = (Ok (res_json (JArr docs) (res_status 200 res0)), w')
    /\ length docs = 2%nat.
Proof.
  destruct (list_courses (env := steady) stranger w0)
    as (docs & w' & E & _ & Hl & _).
  - reflexivity.
  - exists docs, w'. split; [exact E|]. rewrite Hl. reflexivity.
Defined.

(** X15 at Bob trying to delete the course of Alice. *)
Lemma answers_of_each_route_witness :
  In 403 (statuses (DeleteCourse bob_deletes)).
Proof.
  destruct (answers_of_each_route (env := steady) (DeleteCourse bob_deletes) w0
              (forbidden (DeleteCourse bob_deletes))
              (snd (api (env := steady) (DeleteCourse bob_deletes) w0)))
    as (Hin & _).
  - reflexivity.
  - exact Hin.
Defined.

(** X16 at a second sign-up with the e-mail address of Alice. *)
Lemma sign_up_leaves_uniqueness_to_the_database_witness :
  exists u w1,
    POST_users (env := steady) alice_signs_up_again w0 = (Ok (created "/"), w1)
    /\ users (store w1) = [alice; bob; u]
    /\ User.emailAddress u = "alice@example.com".
Proof.
  destruct (sign_up_leaves_uniqueness_to_the_database (env := steady)
              alice_signs_up_again w0 "alice@example.com" alice)
    as (u & w1 & E & Hu & He & _).
  - exact steady_reliable.
  - repeat split; try (eexists; split; [reflexivity|discriminate]).
  - reflexivity.
  - reflexivity.
  - exists u, w1. split; [exact E|]. split; [exact Hu|exact He].
Defined.

End Runs.
